(** * The QEMU virtual machine factory of multipass

    A shallow embedding of
    [src/platform/backends/qemu/qemu_virtual_machine_factory.cpp]:
    the factory's member functions are written as computations in a monad of
    C++ executions (a state, and either a returned value or a thrown
    exception), over the collaborators the factory delegates to. *)

From Stdlib Require Import Ascii String ZArith.
From stdpp Require Import base strings gmap list option.

Local Open Scope string_scope.
Local Open Scope Z_scope.
Local Open Scope list_scope.

(** * Strings and paths *)

(** [QString], [std::string] and the native form of [std::filesystem::path]
    are all character strings here, so [toStdString], [fromStdString],
    [string()] and [c_str()] are the identity. *)
Definition Path := string.

(** The line feed, written [\n] in the sources. *)
Definition newline : string := String (ascii_of_nat 10) EmptyString.

Fixpoint last_char (s : string) : option ascii :=
  match s with
  | EmptyString => None
  | String c EmptyString => Some c
  | String _ rest => last_char rest
  end.

Definition is_separator (c : ascii) : bool := Ascii.eqb c "/"%char.

(** [path::has_root_directory] on a POSIX host, where a path is absolute
    exactly when it has a root directory. *)
Definition has_root_directory (p : Path) : bool :=
  match p with
  | String c _ => is_separator c
  | EmptyString => false
  end.

(** [path::has_filename]: the last element of the path is not empty. *)
Definition has_filename (p : Path) : bool :=
  match last_char p with
  | Some c => negb (is_separator c)
  | None => false
  end.

(** [std::filesystem::operator/]: an absolute right operand replaces the left
    one; otherwise a separator is inserted when the left operand ends in a
    file name. *)
Definition path_append (p q : Path) : Path :=
  if has_root_directory q then q
  else if has_filename p then p +:+ "/" +:+ q
  else p +:+ q.

Infix "</>" := path_append (at level 40, left associativity).

(** * Data model *)

Definition MemorySize := Z.

Record NetworkInterface := {
  id : string;
  mac_address : string;
  auto_mode : bool
}.

(** [VMImage] is copied as a whole by the factory, which then only assigns
    [image_path]; its other members are kept together under [metadata], of a
    type [Meta] the factory never looks into. *)
Record VMImage (Meta : Type) := {
  image_path : Path;
  metadata : Meta
}.
Arguments image_path {Meta} _.
Arguments metadata {Meta} _.

(** A YAML document as the cloud-init helpers hand it over: empty, a scalar,
    or a mapping from field names to values (kept as text). *)
Inductive YamlNode :=
| YamlNull
| YamlScalar (value : string)
| YamlMap (fields : list (string * string)).

(** The members of [VMSpecs] that the clone reads. *)
Module VMSpecs.
Record t := {
  num_cores : Z;
  mem_size : MemorySize;
  disk_space : MemorySize;
  default_mac_address : string;
  extra_interfaces : list NetworkInterface;
  ssh_username : string
}.
End VMSpecs.

(** [VirtualMachineDescription], in the order of the aggregate initialisation
    in [create_vm_and_instance_disk_data]; the last four members are the ones
    it value-initialises with [{}]. *)
Module VirtualMachineDescription.
Record t (Meta : Type) := {
  num_cores : Z;
  mem_size : MemorySize;
  disk_space : MemorySize;
  vm_name : string;
  default_mac_address : string;
  extra_interfaces : list NetworkInterface;
  ssh_username : string;
  image : VMImage Meta;
  cloud_init_iso : Path;
  meta_data_config : YamlNode;
  user_data_config : YamlNode;
  vendor_data_config : YamlNode;
  network_data_config : YamlNode
}.
Arguments num_cores {Meta} _.
Arguments mem_size {Meta} _.
Arguments disk_space {Meta} _.
Arguments vm_name {Meta} _.
Arguments default_mac_address {Meta} _.
Arguments extra_interfaces {Meta} _.
Arguments ssh_username {Meta} _.
Arguments image {Meta} _.
Arguments cloud_init_iso {Meta} _.
Arguments meta_data_config {Meta} _.
Arguments user_data_config {Meta} _.
Arguments vendor_data_config {Meta} _.
Arguments network_data_config {Meta} _.
End VirtualMachineDescription.

(** * The boot-config archive held in memory *)

(** Modelled from the spec: [CloudInitIso] (multipass/cloud_init_iso.h is not
    among the sources) is a small ordered mapping from key to text content,
    loaded fully into memory, with [contains], [at] and assignment through the
    reference [at] returns; a missing key is a structural error. *)
Module CloudInitIso.
Record FileEntry := { name : string; data : string }.

Definition t := list FileEntry.

Definition contains (key : string) (iso : t) : bool :=
  existsb (fun e => String.eqb (name e) key) iso.

Fixpoint at_ (key : string) (iso : t) : option string :=
  match iso with
  | [] => None
  | e :: rest => if String.eqb (name e) key then Some (data e) else at_ key rest
  end.

(** Assignment through the reference returned by [at(key)]. *)
Fixpoint assign (key content : string) (iso : t) : t :=
  match iso with
  | [] => []
  | e :: rest =>
      if String.eqb (name e) key
      then {| name := name e; data := content |} :: rest
      else e :: assign key content rest
  end.
End CloudInitIso.

(** * Executions *)

(** What a C++ call can throw; the factory never inspects an exception, it
    only lets it propagate. *)
Inductive Exception :=
| runtime_error (what : string)
| filesystem_error (what : string) (code : Z)
| other_exception (what : string).

Inductive Outcome (A : Type) :=
| Returned (value : A)
| Thrown (e : Exception).
Arguments Returned {A} _.
Arguments Thrown {A} _.

Definition returned {A} (o : Outcome A) : bool :=
  match o with Returned _ => true | Thrown _ => false end.

(** [std::error_code]: zero is success. *)
Definition error_code := Z.

Inductive LogLevel := error_level | warning_level | info_level | debug_level.

Record LogEntry := {
  level : LogLevel;
  log_category : string;
  message : string
}.

(** The calls the factory makes on its collaborators, recorded in the order
    they are issued. [ScopeGuardDismissed] records [rollback.dismiss()]. *)
Inductive Call (Meta : Type) :=
| FileOpsExists (p : Path)
| FileOpsRemove (p : Path)
| FileOpsCopy (from to : Path)
| IsoReadFrom (p : Path)
| IsoWriteTo (iso : CloudInitIso.t) (p : Path)
| MakeMetaConfig (name content : string)
| MakeNetworkConfig (mac : string) (extra : list NetworkInterface) (content : string)
| NewQemuVirtualMachine (desc : VirtualMachineDescription.t Meta) (instance_dir : Path)
| LoadSnapshots (source_name : string)
| ConvertToQcow (p : Path)
| AmendToQcow2V3 (p : Path)
| ScopeGuardDismissed.
Arguments FileOpsExists {Meta} _.
Arguments FileOpsRemove {Meta} _.
Arguments FileOpsCopy {Meta} _ _.
Arguments IsoReadFrom {Meta} _.
Arguments IsoWriteTo {Meta} _ _.
Arguments MakeMetaConfig {Meta} _ _.
Arguments MakeNetworkConfig {Meta} _ _ _.
Arguments NewQemuVirtualMachine {Meta} _ _.
Arguments LoadSnapshots {Meta} _.
Arguments ConvertToQcow {Meta} _.
Arguments AmendToQcow2V3 {Meta} _.
Arguments ScopeGuardDismissed {Meta}.

(** The state an execution runs in: the world outside the factory (file
    system, hypervisor, the heap of VM objects), the calls issued so far, the
    log, and the flag of the scope guard of the running function. *)
Record Machine (World Meta : Type) := {
  world : World;
  calls : list (Call Meta);
  logged : list LogEntry;
  dismissed : bool
}.
Arguments world {World Meta} _.
Arguments calls {World Meta} _.
Arguments logged {World Meta} _.
Arguments dismissed {World Meta} _.
Arguments Build_Machine {World Meta} _ _ _ _.

(** A computation: it returns or throws, and in both cases leaves a state. *)
Definition Exec (World Meta A : Type) : Type :=
  Machine World Meta -> Outcome A * Machine World Meta.

Global Instance Exec_ret {World Meta} : MRet (Exec World Meta) :=
  fun A (a : A) m => (Returned a, m).

Global Instance Exec_bind {World Meta} : MBind (Exec World Meta) :=
  fun A B (k : A -> Exec World Meta B) (c : Exec World Meta A) m =>
    match c m with
    | (Returned a, m') => k a m'
    | (Thrown e, m') => (Thrown e, m')
    end.

Global Instance Exec_throw {World Meta} : MThrow Exception (Exec World Meta) :=
  fun A (e : Exception) m => (Thrown e, m).

(** * Collaborators *)

(** Modelled from the spec: [ProcessState] of the process layer
    (multipass/process/process.h is not among the sources). A subprocess
    either fails to start ([error] is set) or exits with a status
    ([exit_code] is set), and it completes successfully when it started and
    exited with status zero. The factory tests both members for presence. *)
Module ProcessState.
Record ProcessError := { error_message : string }.

Record t := {
  exit_code : option Z;
  error : option ProcessError
}.

Definition completed_successfully (s : t) : bool :=
  match error s, exit_code s with
  | None, Some 0 => true
  | _, _ => false
  end.
End ProcessState.

Inductive copy_options := copy_options_none | copy_options_recursive.

(** Everything the factory delegates to. Operations that act on the world
    take it and give it back; the overloads of MP_FILEOPS that report through
    a [std::error_code] cannot throw, which their result type records. *)
Record Collaborators := {
  World : Type;
  Meta : Type;
  VirtualMachine : Type;
  SSHKeyProvider : Type;
  VMStatusMonitor : Type;
  Process : Type;
  (* MP_FILEOPS *)
  fileops_exists : Path -> World -> bool * error_code;
  fileops_remove : Path -> World -> (bool * error_code) * World;
  fileops_copy : Path -> Path -> copy_options -> World -> Outcome unit * World;
  (* CloudInitIso, the part that touches the disk *)
  iso_read_from : Path -> World -> Outcome CloudInitIso.t * World;
  iso_write_to : CloudInitIso.t -> Path -> World -> Outcome unit * World;
  (* multipass/yaml_node_utils.h *)
  make_cloud_init_meta_config : string -> string -> Outcome YamlNode;
  make_cloud_init_network_config :
    string -> list NetworkInterface -> string -> Outcome YamlNode;
  emit_cloud_config : YamlNode -> string;
  (* QemuVirtualMachine *)
  new_QemuVirtualMachine :
    VirtualMachineDescription.t Meta -> VMStatusMonitor -> SSHKeyProvider -> Path ->
    World -> Outcome VirtualMachine * World;
  load_snapshots_and_update_unique_identifiers :
    VirtualMachine -> VMSpecs.t -> VMSpecs.t -> string -> World -> Outcome unit * World;
  (* QemuPlatform and BaseVirtualMachineFactory *)
  get_directory_name : string;
  get_instance_directory : string -> Path;
  (* shared/qemu_img_utils *)
  convert_to_qcow_if_necessary : Path -> World -> Outcome Path * World;
  amend_to_qcow2_v3 : Path -> World -> Outcome unit * World;
  (* the process layer *)
  HOST_ARCH : string;
  make_process : string -> list string -> Process;
  execute : Process -> ProcessState.t * Process;
  read_all_standard_output : Process -> string * Process;
  read_all_standard_error : Process -> string * Process;
  failure_message : ProcessState.t -> string
}.

(** Modelled from the spec: [mp::utils::backend_directory_path] (not among
    the sources) places the backend's directory name under the data root,
    [<data_root>/<backend-directory-name>]. *)
Definition backend_directory_path (path : Path) (subdirectory : string) : Path :=
  path +:+ "/" +:+ subdirectory.

(** * The version pattern *)

(** [QRegularExpression("^QEMU emulator version ([\\d\\.]+)")]: the subject must
    start with the literal text, and the group takes the longest run of
    decimal digits and dots that follows, which must not be empty. *)
Fixpoint strip_prefix (prefix subject : string) : option string :=
  match prefix, subject with
  | EmptyString, rest => Some rest
  | String a prefix', String b subject' =>
      if Ascii.eqb a b then strip_prefix prefix' subject' else None
  | String _ _, EmptyString => None
  end.

Definition is_digit (c : ascii) : bool :=
  (48 <=? nat_of_ascii c)%nat && (nat_of_ascii c <=? 57)%nat.

Definition in_version_class (c : ascii) : bool :=
  is_digit c || Ascii.eqb c "."%char.

Fixpoint take_while (f : ascii -> bool) (s : string) : string :=
  match s with
  | String c rest => if f c then String c (take_while f rest) else EmptyString
  | EmptyString => EmptyString
  end.

(** [version_re.match(subject)]: [None] when [hasMatch()] is false, otherwise
    [captured(1)]. *)
Definition version_re_match (subject : string) : option string :=
  match strip_prefix "QEMU emulator version " subject with
  | Some rest =>
      match take_while in_version_class rest with
      | EmptyString => None
      | captured => Some captured
      end
  | None => None
  end.

Definition category : string := "qemu factory".

Section Factory.
Context (C : Collaborators).

Local Abbreviation M := (Exec (World C) (Meta C)).
Local Abbreviation State := (Machine (World C) (Meta C)).

Definition set_world (w : World C) (m : State) : State :=
  Build_Machine w (calls m) (logged m) (dismissed m).

Definition set_dismissed (b : bool) (m : State) : State :=
  Build_Machine (world m) (calls m) (logged m) b.

Definition record (c : Call (Meta C)) : M unit :=
  fun m => (Returned tt, Build_Machine (world m) (calls m ++ [c]) (logged m) (dismissed m)).

(** [mpl::log] *)
Definition log (l : LogLevel) (cat msg : string) : M unit :=
  fun m => (Returned tt,
            Build_Machine (world m) (calls m)
              (logged m ++ [{| level := l; log_category := cat; message := msg |}])
              (dismissed m)).

Definition of_outcome {A} (o : Outcome A) : M A := fun m => (o, m).

(** A collaborator that may throw, run on the current world. *)
Definition on_world {A} (f : World C -> Outcome A * World C) : M A :=
  fun m => let (r, w) := f (world m) in (r, set_world w m).

(** A collaborator that cannot throw, run on the current world. *)
Definition on_world_noexcept {A} (f : World C -> A * World C) : M A :=
  fun m => let (a, w) := f (world m) in (Returned a, set_world w m).

(** ** sg::make_scope_guard *)

(** The guard is armed when it is made; when its scope is left, by return
    or by exception, the callback runs unless [dismiss] was called. The
    callback is [noexcept]; its outcome is not looked at. *)
Definition make_scope_guard {A} (callback : M unit) (scope : M A) : M A :=
  fun m =>
    let outer := dismissed m in
    let (r, m1) := scope (set_dismissed false m) in
    let m2 := if dismissed m1 then m1 else (callback m1).2 in
    (r, set_dismissed outer m2).

Definition dismiss : M unit :=
  fun m => (Returned tt,
            Build_Machine (world m) (calls m ++ [ScopeGuardDismissed]) (logged m) true).

(** ** The factory *)

Definition get_backend_directory_name : string := get_directory_name C.

(** [std::make_unique<QemuVirtualMachine>], on the instance directory the
    base factory answers for the name of the description. *)
Definition create_virtual_machine
    (desc : VirtualMachineDescription.t (Meta C))
    (key_provider : SSHKeyProvider C) (monitor : VMStatusMonitor C)
  : M (VirtualMachine C) :=
  let instance_dir := get_instance_directory C (VirtualMachineDescription.vm_name desc) in
  record (NewQemuVirtualMachine desc instance_dir);;
  on_world (new_QemuVirtualMachine C desc monitor key_provider instance_dir).

(** The lambda handed to the scope guard. *)
Definition rollback (instance_directory_path : Path) : M unit :=
  record (FileOpsExists instance_directory_path);;
  '(found, err_code) ← on_world_noexcept
      (fun w => (fileops_exists C instance_directory_path w, w));
  if (found : bool) then
    record (FileOpsRemove instance_directory_path);;
    _ ← on_world_noexcept (fileops_remove C instance_directory_path);
    mret tt
  else mret tt.

Definition iso_at (key : string) (iso : CloudInitIso.t) : M string :=
  match CloudInitIso.at_ key iso with
  | Some content => mret content
  | None =>
      mthrow (runtime_error
                ("Did not find the target file " +:+ key +:+ " in the CloudInitIso instance."))
  end.

Definition instances_data_directory (data_directory : Path) : Path :=
  backend_directory_path data_directory get_backend_directory_name
    </> "vault" </> "instances".

(** The aggregate initialisation of [dest_vm_desc]. *)
Definition make_dest_vm_desc
    (dest_vm_spec : VMSpecs.t) (destination_name : string)
    (dest_vm_image : VMImage (Meta C)) (cloud_init_config_iso_file_path : Path)
  : VirtualMachineDescription.t (Meta C) :=
  {| VirtualMachineDescription.num_cores := VMSpecs.num_cores dest_vm_spec;
     VirtualMachineDescription.mem_size := VMSpecs.mem_size dest_vm_spec;
     VirtualMachineDescription.disk_space := VMSpecs.disk_space dest_vm_spec;
     VirtualMachineDescription.vm_name := destination_name;
     VirtualMachineDescription.default_mac_address :=
       VMSpecs.default_mac_address dest_vm_spec;
     VirtualMachineDescription.extra_interfaces :=
       VMSpecs.extra_interfaces dest_vm_spec;
     VirtualMachineDescription.ssh_username := VMSpecs.ssh_username dest_vm_spec;
     VirtualMachineDescription.image := dest_vm_image;
     VirtualMachineDescription.cloud_init_iso := cloud_init_config_iso_file_path;
     VirtualMachineDescription.meta_data_config := YamlNull;
     VirtualMachineDescription.user_data_config := YamlNull;
     VirtualMachineDescription.vendor_data_config := YamlNull;
     VirtualMachineDescription.network_data_config := YamlNull |}.

(** The clone. The scope of the guard is the rest of the function body, and
    each call on a collaborator is recorded before it is made. The other
    locals are plain values: what their destructors do when an exception
    unwinds the body is not part of the model. *)
Definition create_vm_and_instance_disk_data
    (data_directory : Path)
    (src_vm_spec dest_vm_spec : VMSpecs.t)
    (source_name destination_name : string)
    (dest_vm_image : VMImage (Meta C))
    (key_provider : SSHKeyProvider C) (monitor : VMStatusMonitor C)
  : M (VirtualMachine C) :=
  let source_instance_data_directory :=
    instances_data_directory data_directory </> source_name in
  let dest_instance_data_directory :=
    instances_data_directory data_directory </> destination_name in
  make_scope_guard (rollback dest_instance_data_directory) (
    record (FileOpsCopy source_instance_data_directory dest_instance_data_directory);;
    on_world (fileops_copy C source_instance_data_directory
                dest_instance_data_directory copy_options_recursive);;
    let cloud_init_config_iso_file_path :=
      dest_instance_data_directory </> "cloud-init-config.iso" in
    record (IsoReadFrom cloud_init_config_iso_file_path);;
    qemu_iso ← on_world (iso_read_from C cloud_init_config_iso_file_path);
    meta_data_file_content ← iso_at "meta-data" qemu_iso;
    record (MakeMetaConfig destination_name meta_data_file_content);;
    meta_node ← of_outcome
      (make_cloud_init_meta_config C destination_name meta_data_file_content);
    let qemu_iso := CloudInitIso.assign "meta-data" (emit_cloud_config C meta_node) qemu_iso in
    qemu_iso ←
      (if CloudInitIso.contains "network-config" qemu_iso then
         network_config_file_content ← iso_at "network-config" qemu_iso;
         record (MakeNetworkConfig (VMSpecs.default_mac_address dest_vm_spec)
                   (VMSpecs.extra_interfaces dest_vm_spec) network_config_file_content);;
         network_node ← of_outcome
           (make_cloud_init_network_config C
              (VMSpecs.default_mac_address dest_vm_spec)
              (VMSpecs.extra_interfaces dest_vm_spec)
              network_config_file_content);
         mret (CloudInitIso.assign "network-config"
                 (emit_cloud_config C network_node) qemu_iso)
       else mret qemu_iso);
    record (IsoWriteTo qemu_iso cloud_init_config_iso_file_path);;
    on_world (iso_write_to C qemu_iso cloud_init_config_iso_file_path);;
    let dest_vm_desc :=
      make_dest_vm_desc dest_vm_spec destination_name dest_vm_image
        cloud_init_config_iso_file_path in
    cloned_instance ← create_virtual_machine dest_vm_desc key_provider monitor;
    record (LoadSnapshots source_name);;
    on_world (load_snapshots_and_update_unique_identifiers C cloned_instance
                src_vm_spec dest_vm_spec source_name);;
    dismiss;;
    mret cloned_instance).

(** ** Image preparation *)

(** The argument is a reference to a constant; [image] is the copy the
    function returns. *)
Definition prepare_source_image (source_image : VMImage (Meta C)) : M (VMImage (Meta C)) :=
  let image := source_image in
  record (ConvertToQcow (image_path source_image));;
  converted ← on_world (convert_to_qcow_if_necessary C (image_path source_image));
  let image := {| image_path := converted; metadata := metadata image |} in
  record (AmendToQcow2V3 (image_path image));;
  on_world (amend_to_qcow2_v3 C (image_path image));;
  mret image.

(** ** The version probe *)

(** Reading a channel of the process gives the process back, since a read
    may consume what was buffered. The last [return] of the source is written
    at the end of each branch that reaches it. *)
Definition get_backend_version_string : M string :=
  let process := make_process C ("qemu-system-" +:+ HOST_ARCH C) ["--version"] in
  let '(exit_state, process) := execute C process in
  if ProcessState.completed_successfully exit_state then
    let '(output, process) := read_all_standard_output C process in
    match version_re_match output with
    | Some captured => mret ("qemu-" +:+ captured)
    | None =>
        let '(output_again, process) := read_all_standard_output C process in
        log error_level category
          ("Failed to parse QEMU version out: '" +:+ output_again +:+ "'");;
        mret "qemu-unknown"
    end
  else
    match ProcessState.error exit_state, ProcessState.exit_code exit_state with
    | Some _, _ =>
        log error_level category
          ("Qemu failed to start: " +:+ failure_message C exit_state);;
        mret "qemu-unknown"
    | None, Some _ =>
        let '(output, process) := read_all_standard_output C process in
        let '(errors, process) := read_all_standard_error C process in
        log error_level category
          ("Qemu fail: '" +:+ failure_message C exit_state +:+ "' with outputs:" +:+ newline
             +:+ output +:+ newline +:+ errors);;
        mret "qemu-unknown"
    | None, None => mret "qemu-unknown"
    end.

End Factory.

(** * The spec's reading of the helpers that are not among the sources *)

Definition yaml_field (key : string) (node : YamlNode) : option string :=
  match node with
  | YamlMap fields => snd <$> List.find (fun kv => String.eqb (fst kv) key) fields
  | _ => None
  end.

Fixpoint set_field (key value : string) (fields : list (string * string))
  : list (string * string) :=
  match fields with
  | [] => [(key, value)]
  | (k, v) :: rest =>
      if String.eqb k key then (k, value) :: rest else (k, v) :: set_field key value rest
  end.

(** Modelled from the spec: [mpu::make_cloud_init_meta_config] (declared in
    multipass/yaml_node_utils.h, not among the sources) encodes the first-boot
    identity for the new name in the existing meta-data content: the document
    is the old one with its identity field set to the name, not a blank
    template. Content that is not a mapping is malformed, a structural error.
    [load] stands for the YAML parser and [identity_field] for the key that
    carries the identity. *)
Definition make_cloud_init_meta_config_from_spec
    (load : string -> Outcome YamlNode) (identity_field : string)
    (name file_content : string) : Outcome YamlNode :=
  match load file_content with
  | Returned (YamlMap fields) => Returned (YamlMap (set_field identity_field name fields))
  | Returned YamlNull => Returned (YamlMap [(identity_field, name)])
  | Returned (YamlScalar _) => Thrown (runtime_error "meta-data is not a mapping")
  | Thrown e => Thrown e
  end.

(** * In-memory collaborators

    A file system, an image tool, a VM object and a process kept in memory,
    on which the factory can be run. *)
Module InMemory.

Inductive ImageFormat := raw | qcow2.

Record DiskImage := {
  container_format : ImageFormat;
  format_revision : Z
}.

Inductive Node :=
| Directory
| RegularFile (content : string)
| IsoFile (iso : CloudInitIso.t)
| DiskImageFile (img : DiskImage).

(** Failures that a run can be made to meet. *)
Inductive Fault :=
| CopyFails
| ReadFails
| WriteFails
| ConstructionFails
| SnapshotLoadFails.

Global Instance Fault_eq_dec : EqDecision Fault.
Proof. solve_decision. Defined.

Record SimWorld := {
  files : gmap string Node;
  faults : list Fault
}.

Definition set_files (f : gmap string Node) (w : SimWorld) : SimWorld :=
  {| files := f; faults := faults w |}.

Definition injected (f : Fault) (w : SimWorld) : bool := bool_decide (f ∈ faults w).

Definition ENOENT : Z := 2.
Definition EEXIST : Z := 17.
Definition ENOTEMPTY : Z := 39.

(** ** std::filesystem, as MP_FILEOPS forwards to it *)

Definition is_inside (dir entry : Path) : bool := String.prefix (dir +:+ "/") entry.

Definition has_entries (dir : Path) (w : SimWorld) : bool :=
  existsb (fun kv => is_inside dir (fst kv)) (map_to_list (files w)).

(** [exists(p, ec)] *)
Definition fs_exists (p : Path) (w : SimWorld) : bool * error_code :=
  match files w !! p with
  | Some _ => (true, 0)
  | None => (false, 0)
  end.

(** [remove(p, ec)]: deletes a file or an empty directory; a directory that
    still has entries is left alone and reported through [ec]. *)
Definition fs_remove (p : Path) (w : SimWorld) : (bool * error_code) * SimWorld :=
  match files w !! p with
  | None => ((false, 0), w)
  | Some Directory =>
      if has_entries p w then ((false, ENOTEMPTY), w)
      else ((true, 0), set_files (delete p (files w)) w)
  | Some _ => ((true, 0), set_files (delete p (files w)) w)
  end.

Definition drop_chars (n : nat) (s : string) : string :=
  String.substring n (String.length s - n) s.

(** The entries a recursive copy of [from] creates under [to]. *)
Definition is_direct_child (dir entry : Path) : bool :=
  is_inside dir entry &&
  negb (existsb is_separator
          (list_ascii_of_string (drop_chars (S (String.length dir)) entry))).

(** The entries a copy of the directory [from] creates: the directory itself
    at [to], and under it the files directly in [from], or with
    [copy_options::recursive] everything under [from]. *)
Definition copied_entries (from to : Path) (options : copy_options) (w : SimWorld)
  : list (Path * Node) :=
  omap (fun kv =>
          let copied := Some (to +:+ drop_chars (String.length from) (fst kv), snd kv) in
          if String.eqb (fst kv) from then Some (to, snd kv)
          else match options, snd kv with
               | copy_options_recursive, _ => if is_inside from (fst kv) then copied else None
               | copy_options_none, Directory => None
               | copy_options_none, _ => if is_direct_child from (fst kv) then copied else None
               end)
       (map_to_list (files w)).

(** [copy(from, to, options)]: for a directory, a directory is created at
    [to] unless one is there and the entries are copied under it; a file that
    is already there is an error. *)
Definition fs_copy (from to : Path) (options : copy_options) (w : SimWorld)
  : Outcome unit * SimWorld :=
  if injected CopyFails w then (Thrown (filesystem_error "cannot copy" 13), w)
  else
    match files w !! from with
    | None => (Thrown (filesystem_error "cannot copy: No such file or directory" ENOENT), w)
    | Some Directory =>
        let created := copied_entries from to options w in
        if existsb (fun kv => match files w !! fst kv, snd kv with
                              | None, _ | Some Directory, Directory => false
                              | Some _, _ => true
                              end) created
        then (Thrown (filesystem_error "cannot copy: File exists" EEXIST), w)
        else (Returned tt, set_files (list_to_map created ∪ files w) w)
    | Some node =>
        match files w !! to with
        | Some _ => (Thrown (filesystem_error "cannot copy: File exists" EEXIST), w)
        | None => (Returned tt, set_files (<[to := node]> (files w)) w)
        end
    end.

(** ** CloudInitIso on disk *)

Definition read_from (p : Path) (w : SimWorld) : Outcome CloudInitIso.t * SimWorld :=
  if injected ReadFails w then (Thrown (runtime_error "Failed to read file"), w)
  else
    match files w !! p with
    | Some (IsoFile iso) => (Returned iso, w)
    | _ => (Thrown (runtime_error "Failed to open file for reading"), w)
    end.

Definition write_to (iso : CloudInitIso.t) (p : Path) (w : SimWorld) : Outcome unit * SimWorld :=
  if injected WriteFails w then (Thrown (runtime_error "Failed to open file for writing"), w)
  else (Returned tt, set_files (<[p := IsoFile iso]> (files w)) w).

(** ** YAML, for documents made of [key: value] lines *)

Fixpoint split_on (sep : ascii) (s : string) : list string :=
  match s with
  | EmptyString => [EmptyString]
  | String c rest =>
      let parts := split_on sep rest in
      if Ascii.eqb c sep then EmptyString :: parts
      else match parts with
           | part :: others => String c part :: others
           | [] => [String c EmptyString]
           end
  end.

Fixpoint split_field (line : string) : option (string * string) :=
  match line with
  | EmptyString => None
  | String c rest =>
      if Ascii.eqb c ":"%char && String.prefix " " rest
      then Some (EmptyString, drop_chars 1 rest)
      else match split_field rest with
           | Some (k, v) => Some (String c k, v)
           | None => None
           end
  end.

Definition is_content_line (line : string) : bool :=
  negb (String.eqb line "") && negb (String.prefix "#" line).

Fixpoint parse_fields (lines : list string) : option (list (string * string)) :=
  match lines with
  | [] => Some []
  | line :: rest =>
      match split_field line, parse_fields rest with
      | Some kv, Some kvs => Some (kv :: kvs)
      | _, _ => None
      end
  end.

Definition yaml_load (content : string) : Outcome YamlNode :=
  match List.filter is_content_line (split_on (ascii_of_nat 10) content) with
  | [] => Returned YamlNull
  | lines =>
      match parse_fields lines with
      | Some fields => Returned (YamlMap fields)
      | None => Thrown (other_exception "yaml: bad conversion")
      end
  end.

Definition emit_yaml (node : YamlNode) : string :=
  match node with
  | YamlNull => ""
  | YamlScalar s => s +:+ newline
  | YamlMap fields =>
      String.concat "" (List.map (fun kv => fst kv +:+ ": " +:+ snd kv +:+ newline) fields)
  end.

Definition emit (node : YamlNode) : string := "#cloud-config" +:+ newline +:+ emit_yaml node.

Definition identity_field : string := "local-hostname".

Definition meta_config (name content : string) : Outcome YamlNode :=
  make_cloud_init_meta_config_from_spec yaml_load identity_field name content.

Definition network_config (mac : string) (extra : list NetworkInterface) (content : string)
  : Outcome YamlNode :=
  match yaml_load content with
  | Returned (YamlMap fields) => Returned (YamlMap (set_field "macaddress" mac fields))
  | Returned _ => Returned (YamlMap [("macaddress", mac)])
  | Thrown e => Thrown e
  end.

(** ** The VM object *)

(** What an image carries besides its path. *)
Record ImageMetadata := {
  image_id : string;
  release : string;
  aliases : list string
}.

Definition construct (desc : VirtualMachineDescription.t ImageMetadata)
    (monitor key_provider : unit)
    (instance_dir : Path) (w : SimWorld) : Outcome string * SimWorld :=
  if injected ConstructionFails w
  then (Thrown (runtime_error "cannot construct the instance"), w)
  else (Returned (VirtualMachineDescription.vm_name desc), w).

Definition load_snapshots (vm : string) (src dest : VMSpecs.t) (source_name : string)
    (w : SimWorld) : Outcome unit * SimWorld :=
  if injected SnapshotLoadFails w
  then (Thrown (runtime_error "cannot load snapshots"), w)
  else (Returned tt, w).

(** ** qemu-img *)

(** Modelled from the spec: [mp::backend::convert_to_qcow_if_necessary]
    (shared/qemu_img_utils is not among the sources) converts the image to the
    backend's required container format if it is not already in it, and then
    answers the path of the converted image; an image already in that format
    is answered as it is. *)
Definition convert_to_qcow (p : Path) (w : SimWorld) : Outcome Path * SimWorld :=
  match files w !! p with
  | Some (DiskImageFile img) =>
      match container_format img with
      | qcow2 => (Returned p, w)
      | raw =>
          let converted := p +:+ ".qcow2" in
          (Returned converted,
           set_files (<[converted := DiskImageFile
                          {| container_format := qcow2;
                             format_revision := format_revision img |}]> (files w)) w)
      end
  | _ => (Thrown (runtime_error "Cannot read image format"), w)
  end.

(** Modelled from the spec: [mp::backend::amend_to_qcow2_v3] (not among the
    sources) normalises the internal format revision of the image. *)
Definition amend_to_v3 (p : Path) (w : SimWorld) : Outcome unit * SimWorld :=
  match files w !! p with
  | Some (DiskImageFile img) =>
      (Returned tt,
       set_files (<[p := DiskImageFile
                      {| container_format := container_format img;
                         format_revision := 3 |}]> (files w)) w)
  | _ => (Thrown (runtime_error "Failed to amend image to QCOW2 v3"), w)
  end.

(** ** The process layer *)

Record SimProcess := {
  program : string;
  arguments : list string;
  exit_state : ProcessState.t;
  standard_output : string;
  standard_error : string
}.

(** What running [program] would give, fixed in advance. *)
Record Host := {
  host_exit_state : ProcessState.t;
  host_output : string;
  host_error : string
}.

Definition spawn (h : Host) (prog : string) (args : list string) : SimProcess :=
  {| program := prog; arguments := args; exit_state := host_exit_state h;
     standard_output := host_output h; standard_error := host_error h |}.

(** Reading a channel returns what is buffered and empties the buffer. *)
Definition read_output (p : SimProcess) : string * SimProcess :=
  (standard_output p,
   {| program := program p; arguments := arguments p; exit_state := exit_state p;
      standard_output := ""; standard_error := standard_error p |}).

Definition read_error (p : SimProcess) : string * SimProcess :=
  (standard_error p,
   {| program := program p; arguments := arguments p; exit_state := exit_state p;
      standard_output := standard_output p; standard_error := "" |}).

Definition describe_failure (s : ProcessState.t) : string :=
  match ProcessState.error s with
  | Some e => ProcessState.error_message e
  | None => "Process returned a non-zero exit code"
  end.

Definition collaborators (h : Host) : Collaborators :=
  {| World := SimWorld;
     Meta := ImageMetadata;
     VirtualMachine := string;
     SSHKeyProvider := unit;
     VMStatusMonitor := unit;
     Process := SimProcess;
     fileops_exists := fs_exists;
     fileops_remove := fs_remove;
     fileops_copy := fs_copy;
     iso_read_from := read_from;
     iso_write_to := write_to;
     make_cloud_init_meta_config := meta_config;
     make_cloud_init_network_config := network_config;
     emit_cloud_config := emit;
     new_QemuVirtualMachine := construct;
     load_snapshots_and_update_unique_identifiers := load_snapshots;
     get_directory_name := "qemu";
     get_instance_directory := fun name => "/data/qemu/vault/instances" </> name;
     convert_to_qcow_if_necessary := convert_to_qcow;
     amend_to_qcow2_v3 := amend_to_v3;
     HOST_ARCH := "x86_64";
     make_process := spawn h;
     execute := fun p => (exit_state p, p);
     read_all_standard_output := read_output;
     read_all_standard_error := read_error;
     failure_message := describe_failure |}.

(** ** A host and an instance to run the factory on *)

Definition version_output : string := "QEMU emulator version 8.2.1" +:+ newline.

Definition host : Host :=
  {| host_exit_state := {| ProcessState.exit_code := Some 0; ProcessState.error := None |};
     host_output := version_output;
     host_error := "" |}.

Definition source_meta_data : string :=
  "#cloud-config" +:+ newline +:+
  "instance-id: primary" +:+ newline +:+
  "local-hostname: primary" +:+ newline +:+
  "timezone: Europe/Lisbon" +:+ newline.

Definition source_iso : CloudInitIso.t :=
  [ {| CloudInitIso.name := "meta-data"; CloudInitIso.data := source_meta_data |};
    {| CloudInitIso.name := "user-data"; CloudInitIso.data := "#cloud-config" +:+ newline |} ].

Definition source_network_config : string :=
  "#cloud-config" +:+ newline +:+
  "version: 2" +:+ newline +:+
  "macaddress: 52:54:00:00:00:01" +:+ newline.

Definition source_iso_with_network : CloudInitIso.t :=
  source_iso ++
  [ {| CloudInitIso.name := "network-config"; CloudInitIso.data := source_network_config |} ].

Definition source_image : DiskImage := {| container_format := raw; format_revision := 2 |}.

Definition instances : Path := "/data/qemu/vault/instances".

Definition disk_with (iso : CloudInitIso.t) (fs : list Fault) : SimWorld :=
  {| files :=
       list_to_map
         [ (instances +:+ "/primary", Directory);
           (instances +:+ "/primary/cloud-init-config.iso", IsoFile iso);
           (instances +:+ "/primary/ubuntu.img", DiskImageFile source_image) ];
     faults := fs |}.

Definition disk (fs : list Fault) : SimWorld := disk_with source_iso fs.

(** An archive that lacks the meta-data entry, and a source instance
    directory that holds nothing. *)
Definition iso_without_meta_data : CloudInitIso.t :=
  [ {| CloudInitIso.name := "user-data"; CloudInitIso.data := "#cloud-config" +:+ newline |} ].

Definition disk_with_empty_instance : SimWorld :=
  {| files := list_to_map [ (instances +:+ "/primary", Directory) ]; faults := [] |}.

Definition start_on (w : SimWorld) : Machine SimWorld ImageMetadata :=
  Build_Machine w [] [] false.

Definition start (fs : list Fault) : Machine SimWorld ImageMetadata := start_on (disk fs).

Definition specs : VMSpecs.t :=
  {| VMSpecs.num_cores := 2;
     VMSpecs.mem_size := 1073741824;
     VMSpecs.disk_space := 5368709120;
     VMSpecs.default_mac_address := "52:54:00:4b:ab:cd";
     VMSpecs.extra_interfaces := [];
     VMSpecs.ssh_username := "ubuntu" |}.

Definition jammy : ImageMetadata :=
  {| image_id := "e3b0c44298fc"; release := "22.04 LTS"; aliases := ["jammy"; "lts"] |}.

Definition clone_image : VMImage ImageMetadata :=
  {| image_path := instances +:+ "/primary-clone1/ubuntu.img"; metadata := jammy |}.

Definition clone_directory : Path := instances +:+ "/primary-clone1".

(** Cloning [primary] into [primary-clone1] on a given disk. *)
Definition clone_primary_on (w : SimWorld) :=
  create_vm_and_instance_disk_data (collaborators host) "/data" specs specs
    "primary" "primary-clone1" clone_image tt tt (start_on w).

Definition clone_primary (fs : list Fault) := clone_primary_on (disk fs).

Definition primary_image : VMImage ImageMetadata :=
  {| image_path := instances +:+ "/primary/ubuntu.img"; metadata := jammy |}.

Definition clone_archive : Path := clone_directory +:+ "/cloud-init-config.iso".

(** Disks on which a step after the copy fails: the archive cannot be read,
    the archive has no meta-data entry to rewrite, the archive cannot be
    written back, the handle cannot be constructed, the snapshots cannot be
    loaded. *)
Definition disks_failing_after_copy : list SimWorld :=
  [ disk [ReadFails];
    disk_with iso_without_meta_data [];
    disk [WriteFails];
    disk [ConstructionFails];
    disk [SnapshotLoadFails] ].

(** Hosts on which the version query goes wrong. *)
Definition host_that_exits_with (status : Z) (output : string) : Host :=
  {| host_exit_state := {| ProcessState.exit_code := Some status; ProcessState.error := None |};
     host_output := output;
     host_error := "" |}.

Definition host_without_qemu : Host :=
  {| host_exit_state :=
       {| ProcessState.exit_code := None;
          ProcessState.error := Some {| ProcessState.error_message := "No such file" |} |};
     host_output := "";
     host_error := "" |}.

Definition probe (h : Host) := get_backend_version_string (collaborators h) (start []).

End InMemory.

(** * Runs of the factory *)

Inductive CallKind :=
| KExists | KRemove | KCopy | KRead | KMakeMeta | KMakeNetwork | KWrite | KConstruct
| KLoadSnapshots | KConvert | KAmend | KDismiss.

Definition kind_of {Meta} (c : Call Meta) : CallKind :=
  match c with
  | FileOpsExists _ => KExists
  | FileOpsRemove _ => KRemove
  | FileOpsCopy _ _ => KCopy
  | IsoReadFrom _ => KRead
  | IsoWriteTo _ _ => KWrite
  | MakeMetaConfig _ _ => KMakeMeta
  | MakeNetworkConfig _ _ _ => KMakeNetwork
  | NewQemuVirtualMachine _ _ => KConstruct
  | LoadSnapshots _ => KLoadSnapshots
  | ConvertToQcow _ => KConvert
  | AmendToQcow2V3 _ => KAmend
  | ScopeGuardDismissed => KDismiss
  end.

Ltac unfold_exec :=
  unfold create_vm_and_instance_disk_data, make_scope_guard, rollback, create_virtual_machine,
    prepare_source_image, iso_at, of_outcome, record, log, dismiss, on_world, on_world_noexcept,
    set_world, set_dismissed, mbind, Exec_bind, mret, Exec_ret, mthrow, Exec_throw in *;
  simpl in *.

Ltac run_cases := repeat (case_match; simplify_eq/=).

Ltac solve_elem_of :=
  repeat first [apply list_elem_of_here | apply list_elem_of_further].

Ltac solve_not_elem_of :=
  repeat (apply not_elem_of_cons; split; [discriminate|]); apply not_elem_of_nil.

Ltac drop_units := repeat match goal with u : unit |- _ => destruct u end.

Section Runs.
Context (C : Collaborators).

Local Abbreviation State := (Machine (World C) (Meta C)).

(** What the rollback lambda does to a world, and the calls it issues. *)
Definition rollback_world (p : Path) (w : World C) : World C :=
  if (fileops_exists C p w).1 then (fileops_remove C p w).2 else w.

Definition rollback_calls (p : Path) (w : World C) : list (Call (Meta C)) :=
  if (fileops_exists C p w).1 then [FileOpsExists p; FileOpsRemove p] else [FileOpsExists p].

Section Clone.
Context (data_directory : Path) (src_vm_spec dest_vm_spec : VMSpecs.t)
  (source_name destination_name : string) (dest_vm_image : VMImage (Meta C))
  (key_provider : SSHKeyProvider C) (monitor : VMStatusMonitor C).

Definition source_dir : Path := instances_data_directory C data_directory </> source_name.
Definition dest_dir : Path := instances_data_directory C data_directory </> destination_name.
Definition iso_path : Path := dest_dir </> "cloud-init-config.iso".
Definition dest_desc : VirtualMachineDescription.t (Meta C) :=
  make_dest_vm_desc C dest_vm_spec destination_name dest_vm_image iso_path.

(** The edit of the archive in memory: the calls it makes on the YAML helpers
    and the archive it leaves. *)
Inductive ArchiveEdited (iso : CloudInitIso.t) : list (Call (Meta C)) -> CloudInitIso.t -> Prop :=
| edited_meta_data content node :
    CloudInitIso.at_ "meta-data" iso = Some content ->
    make_cloud_init_meta_config C destination_name content = Returned node ->
    CloudInitIso.contains "network-config" iso = false ->
    ArchiveEdited iso [MakeMetaConfig destination_name content]
      (CloudInitIso.assign "meta-data" (emit_cloud_config C node) iso)
| edited_meta_data_and_network content node network_content network_node :
    CloudInitIso.at_ "meta-data" iso = Some content ->
    make_cloud_init_meta_config C destination_name content = Returned node ->
    CloudInitIso.contains "network-config" iso = true ->
    CloudInitIso.at_ "network-config"
      (CloudInitIso.assign "meta-data" (emit_cloud_config C node) iso) = Some network_content ->
    make_cloud_init_network_config C (VMSpecs.default_mac_address dest_vm_spec)
      (VMSpecs.extra_interfaces dest_vm_spec) network_content = Returned network_node ->
    ArchiveEdited iso
      [MakeMetaConfig destination_name content;
       MakeNetworkConfig (VMSpecs.default_mac_address dest_vm_spec)
         (VMSpecs.extra_interfaces dest_vm_spec) network_content]
      (CloudInitIso.assign "network-config" (emit_cloud_config C network_node)
         (CloudInitIso.assign "meta-data" (emit_cloud_config C node) iso)).

(** A call of one of the clone's steps, with the arguments the clone gives it. *)
Definition clone_step (c : Call (Meta C)) : Prop :=
  match c with
  | IsoReadFrom p => p = iso_path
  | IsoWriteTo _ p => p = iso_path
  | MakeMetaConfig name _ => name = destination_name
  | MakeNetworkConfig mac extra _ =>
      mac = VMSpecs.default_mac_address dest_vm_spec /\
      extra = VMSpecs.extra_interfaces dest_vm_spec
  | NewQemuVirtualMachine desc dir =>
      desc = dest_desc /\ dir = get_instance_directory C destination_name
  | LoadSnapshots name => name = source_name
  | _ => False
  end.

(** The two ways a clone ends. It returns after every step returned, and its
    last act is the dismissal of the guard; or a step threw, the steps called
    until then are an initial segment of the sequence, and the rollback lambda
    ran on the world [w] the failure left. *)
Inductive CloneRun (m : State) : Outcome (VirtualMachine C) -> State -> Prop :=
| clone_returned w1 iso w2 edits iso' w3 vm w4 w5 :
    fileops_copy C source_dir dest_dir copy_options_recursive (world m) = (Returned tt, w1) ->
    iso_read_from C iso_path w1 = (Returned iso, w2) ->
    ArchiveEdited iso edits iso' ->
    iso_write_to C iso' iso_path w2 = (Returned tt, w3) ->
    new_QemuVirtualMachine C dest_desc monitor key_provider
      (get_instance_directory C destination_name) w3 = (Returned vm, w4) ->
    load_snapshots_and_update_unique_identifiers C vm src_vm_spec dest_vm_spec
      source_name w4 = (Returned tt, w5) ->
    CloneRun m (Returned vm)
      (Build_Machine w5
         (calls m ++ [FileOpsCopy source_dir dest_dir; IsoReadFrom iso_path] ++ edits ++
            [IsoWriteTo iso' iso_path;
             NewQemuVirtualMachine dest_desc (get_instance_directory C destination_name);
             LoadSnapshots source_name; ScopeGuardDismissed])
         (logged m) (dismissed m))
| clone_threw e steps w :
    Forall clone_step steps ->
    kind_of <$> steps `prefix_of` [KRead; KMakeMeta; KWrite; KConstruct; KLoadSnapshots] \/
    kind_of <$> steps `prefix_of`
      [KRead; KMakeMeta; KMakeNetwork; KWrite; KConstruct; KLoadSnapshots] ->
    CloneRun m (Thrown e)
      (Build_Machine (rollback_world dest_dir w)
         (calls m ++ FileOpsCopy source_dir dest_dir :: steps ++ rollback_calls dest_dir w)
         (logged m) (dismissed m)).

End Clone.
End Runs.

(** * Properties *)

Section Properties.
Context (C : Collaborators).

Local Abbreviation State := (Machine (World C) (Meta C)).

Lemma rollback_run (p : Path) (m : State) :
  rollback C p m =
    (Returned tt,
     Build_Machine (rollback_world C p (world m)) (calls m ++ rollback_calls C p (world m))
       (logged m) (dismissed m)).
Proof.
  unfold rollback_world, rollback_calls. unfold_exec.
  destruct (fileops_exists C p (world m)) as [[] ec]; simpl; [|done].
  destruct (fileops_remove C p (world m)) as [[b ec'] w']; simpl.
  by rewrite <- app_assoc.
Qed.

(** C6: the rollback lambda returns normally from every state. When the
    directory does not exist it only asks [exists] and leaves the world as it
    is; when it exists it issues one [remove], whatever that reports. *)
Theorem rollback_never_raises (p : Path) (m : State) :
  exists m',
    rollback C p m = (Returned tt, m') /\
    ((fileops_exists C p (world m)).1 = false ->
       world m' = world m /\ calls m' = calls m ++ [FileOpsExists p]) /\
    ((fileops_exists C p (world m)).1 = true ->
       world m' = (fileops_remove C p (world m)).2 /\
       calls m' = calls m ++ [FileOpsExists p; FileOpsRemove p]).
Proof.
  eexists. split; [apply rollback_run|].
  unfold rollback_world, rollback_calls. simpl.
  split; intros ->; done.
Qed.

(** C9: [create_virtual_machine] issues exactly one call, the construction of
    the handle for the instance directory of the description's name; its
    outcome, returned handle or thrown exception, and its effect on the world
    are those of that construction, and nothing is logged or retried. *)
Theorem create_virtual_machine_only_constructs
    (desc : VirtualMachineDescription.t (Meta C))
    (key_provider : SSHKeyProvider C) (monitor : VMStatusMonitor C) (m : State) :
  let instance_dir := get_instance_directory C (VirtualMachineDescription.vm_name desc) in
  let run := create_virtual_machine C desc key_provider monitor m in
  (run.1, world run.2) =
    new_QemuVirtualMachine C desc monitor key_provider instance_dir (world m) /\
  calls run.2 = calls m ++ [NewQemuVirtualMachine desc instance_dir] /\
  logged run.2 = logged m /\
  dismissed run.2 = dismissed m.
Proof.
  unfold_exec.
  by destruct (new_QemuVirtualMachine C desc monitor key_provider _ (world m)) as [[vm|e] w].
Qed.

Lemma contains_assign key key' content iso :
  CloudInitIso.contains key (CloudInitIso.assign key' content iso) = CloudInitIso.contains key iso.
Proof.
  induction iso as [|e iso IH]; [done|]. simpl.
  destruct (String.eqb (CloudInitIso.name e) key'); simpl; [done|]. by rewrite IH.
Qed.

Lemma at_assign_same key content content' iso :
  CloudInitIso.at_ key iso = Some content ->
  CloudInitIso.at_ key (CloudInitIso.assign key content' iso) = Some content'.
Proof.
  induction iso as [|e iso IH]; [done|]. simpl.
  destruct (String.eqb (CloudInitIso.name e) key) eqn:E; simpl; rewrite E; auto.
Qed.

Lemma at_assign_other key key' content iso :
  key <> key' ->
  CloudInitIso.at_ key (CloudInitIso.assign key' content iso) = CloudInitIso.at_ key iso.
Proof.
  intros Hne. induction iso as [|e iso IH]; [done|]. simpl.
  destruct (String.eqb_spec (CloudInitIso.name e) key') as [->|]; simpl.
  - destruct (String.eqb_spec key' key); congruence.
  - by rewrite IH.
Qed.

(** ** Fields of a YAML mapping *)

Lemma yaml_field_set_same key value fields :
  yaml_field key (YamlMap (set_field key value fields)) = Some value.
Proof.
  simpl. induction fields as [|[k v] fields IH]; simpl.
  - by rewrite String.eqb_refl.
  - destruct (String.eqb k key) eqn:E; simpl; by rewrite E.
Qed.

Lemma yaml_field_set_other key key' value fields :
  key <> key' ->
  yaml_field key (YamlMap (set_field key' value fields)) = yaml_field key (YamlMap fields).
Proof.
  intros Hne. simpl. induction fields as [|[k v] fields IH]; simpl.
  - destruct (String.eqb_spec key' key); [congruence|done].
  - destruct (String.eqb_spec k key') as [->|]; simpl.
    + destruct (String.eqb_spec key' key); [congruence|done].
    + destruct (String.eqb k key); [done|apply IH].
Qed.

(** The document the spec's meta-data helper answers: the old one, with the
    identity field set to the name. *)
Lemma meta_config_from_spec_fields load identity_field name content node :
  make_cloud_init_meta_config_from_spec load identity_field name content = Returned node ->
  exists old,
    load content = Returned old /\
    yaml_field identity_field node = Some name /\
    forall X, X <> identity_field -> yaml_field X node = yaml_field X old.
Proof.
  unfold make_cloud_init_meta_config_from_spec.
  destruct (load content) as [[| s | fields]|e]; intros H; simplify_eq.
  - exists YamlNull. split; [done|]. split.
    + simpl. by rewrite String.eqb_refl.
    + intros X HX. simpl. destruct (String.eqb_spec identity_field X); [congruence|done].
  - exists (YamlMap fields). split; [done|]. split.
    + apply yaml_field_set_same.
    + intros X HX. by apply yaml_field_set_other.
Qed.

(** ** Paths *)

Lemma append_assoc (a b c : string) : (a +:+ b) +:+ c = a +:+ (b +:+ c).
Proof.
  induction a as [|x a IH]; [reflexivity|].
  change (String x ((a +:+ b) +:+ c) = String x (a +:+ (b +:+ c))). by rewrite IH.
Qed.

Lemma last_char_append (p : string) (c : ascii) (q : string) :
  last_char (p +:+ String c q) = last_char (String c q).
Proof.
  induction p as [|x p IH]; [done|].
  change (String x p +:+ String c q) with (String x (p +:+ String c q)).
  cbn [last_char]. rewrite IH.
  destruct p; reflexivity.
Qed.

Lemma has_filename_append (p q : string) :
  has_filename q = true -> has_filename (p +:+ q) = true.
Proof.
  unfold has_filename. destruct q as [|c q]; [discriminate|].
  by rewrite last_char_append.
Qed.

(** Under a directory that ends in a file name, a relative name is appended
    after one separator. *)
Lemma path_append_relative (p q : Path) :
  has_filename p = true -> has_root_directory q = false -> p </> q = p +:+ "/" +:+ q.
Proof. unfold path_append. by intros -> ->. Qed.

Lemma instances_directory_text (root name : Path) :
  has_filename root = true ->
  has_root_directory name = false ->
  root </> "vault" </> "instances" </> name = root +:+ "/vault/instances/" +:+ name.
Proof.
  intros Hroot Hname.
  rewrite (path_append_relative root "vault") by done.
  rewrite (path_append_relative _ "instances") by (by try apply has_filename_append).
  rewrite (path_append_relative _ name);
    [|rewrite append_assoc; by apply has_filename_append|done].
  by rewrite !append_assoc.
Qed.

(** C10: the image [prepare_source_image] returns is its argument with
    [image_path] replaced by the path the conversion answered; every other
    member is the argument's. It returns whenever the conversion and the
    amendment do. *)
Theorem prepare_source_image_changes_only_the_path
    (source_image : VMImage (Meta C)) (m : State) :
  (forall image m',
     prepare_source_image C source_image m = (Returned image, m') ->
     metadata image = metadata source_image /\
     exists w1,
       convert_to_qcow_if_necessary C (image_path source_image) (world m) =
         (Returned (image_path image), w1) /\
       amend_to_qcow2_v3 C (image_path image) w1 = (Returned tt, world m')) /\
  (forall converted w1 w2,
     convert_to_qcow_if_necessary C (image_path source_image) (world m) =
       (Returned converted, w1) ->
     amend_to_qcow2_v3 C converted w1 = (Returned tt, w2) ->
     prepare_source_image C source_image m =
       (Returned {| image_path := converted; metadata := metadata source_image |},
        Build_Machine w2
          (calls m ++ [ConvertToQcow (image_path source_image); AmendToQcow2V3 converted])
          (logged m) (dismissed m))).
Proof.
  split.
  - intros image m' Hrun. unfold_exec. run_cases. drop_units. eauto.
  - intros converted w1 w2 Hconvert Hamend. unfold_exec.
    rewrite Hconvert. simpl. rewrite Hamend. simpl. by rewrite <- app_assoc.
Qed.

(** ** The version probe *)

(** C3: [get_backend_version_string] always returns. When the process
    completed successfully and its output matches the pattern it answers
    [qemu-] followed by the captured version, [qemu-8.2.1] for the output
    [QEMU emulator version 8.2.1] and a line feed, and logs nothing; in every
    other case it answers [qemu-unknown]; and when the process failed to
    start, exited with a non-zero status, or completed with output that does
    not match, it logs one error. Only the log changes. *)
Theorem version_string_is_parsed_or_unknown (m : State) :
  let process := make_process C ("qemu-system-" +:+ HOST_ARCH C) ["--version"] in
  let exit_state := (execute C process).1 in
  let output := (read_all_standard_output C (execute C process).2).1 in
  let run := get_backend_version_string C m in
  (exists version, run.1 = Returned version) /\
  world run.2 = world m /\ calls run.2 = calls m /\
  (ProcessState.completed_successfully exit_state = true ->
   output = "QEMU emulator version 8.2.1" +:+ newline ->
   run = (Returned "qemu-8.2.1", m)) /\
  (ProcessState.completed_successfully exit_state = true ->
   forall captured, version_re_match output = Some captured ->
     run = (Returned ("qemu-" +:+ captured), m)) /\
  (ProcessState.completed_successfully exit_state = false \/ version_re_match output = None ->
   run.1 = Returned "qemu-unknown") /\
  (is_Some (ProcessState.error exit_state) \/
   (exists status, ProcessState.exit_code exit_state = Some status /\ status <> 0) \/
   (ProcessState.completed_successfully exit_state = true /\ version_re_match output = None) ->
   exists text,
     logged run.2 =
       logged m ++ [{| level := error_level; log_category := "qemu factory"; message := text |}]).
Proof.
  intros process exit_state output run.
  subst run output exit_state process. unfold get_backend_version_string.
  destruct (execute C _) as [exit_state process] eqn:Hexec. simpl.
  destruct (ProcessState.completed_successfully exit_state) eqn:Hok.
  - destruct (read_all_standard_output C process) as [output process'] eqn:Hout. simpl.
    destruct (version_re_match output) as [captured|] eqn:Hmatch.
    + unfold_exec. destruct m. simpl.
      repeat split; eauto.
      * intros _ ->. vm_compute in Hmatch. by injection Hmatch as <-.
      * intros _ ? [= <-]. done.
      * by intros [|].
      * unfold ProcessState.completed_successfully in Hok.
        intros [[e He]|[(status & Hstatus & Hne)|[_ ?]]]; [| |done].
        -- by rewrite He in Hok.
        -- rewrite Hstatus in Hok. destruct (ProcessState.error exit_state); [done|].
           destruct status; done.
    + destruct (read_all_standard_output C process') as [output_again process''].
      unfold_exec. repeat split; eauto.
      * intros _ ->. done.
      * done.
  - assert (world (get_backend_version_string C m).2 = world m) as _ by
      (unfold get_backend_version_string; rewrite Hexec, Hok; unfold_exec; by run_cases).
    unfold ProcessState.completed_successfully in Hok.
    destruct (ProcessState.error exit_state) as [e|] eqn:He.
    + unfold_exec. repeat split; eauto; done.
    + destruct (ProcessState.exit_code exit_state) as [status|] eqn:Hstatus.
      * destruct (read_all_standard_output C process) as [output process'].
        destruct (read_all_standard_error C process') as [errors process''].
        unfold_exec. repeat split; eauto; done.
      * unfold_exec. destruct m. simpl. repeat split; eauto; try done.
        intros [[? [=]]|[(status & [=] & _)|[[=] _]]].
Qed.

Section Clone.
Context (data_directory : Path) (src_vm_spec dest_vm_spec : VMSpecs.t)
  (source_name destination_name : string) (dest_vm_image : VMImage (Meta C))
  (key_provider : SSHKeyProvider C) (monitor : VMStatusMonitor C).

Local Abbreviation clone :=
  (create_vm_and_instance_disk_data C data_directory src_vm_spec dest_vm_spec source_name
     destination_name dest_vm_image key_provider monitor).
Local Abbreviation source := (source_dir C data_directory source_name).
Local Abbreviation dest := (dest_dir C data_directory destination_name).
Local Abbreviation archive := (iso_path C data_directory destination_name).
Local Abbreviation description :=
  (dest_desc C data_directory dest_vm_spec destination_name dest_vm_image).
Local Abbreviation Run :=
  (CloneRun C data_directory src_vm_spec dest_vm_spec source_name destination_name
     dest_vm_image key_provider monitor).

(** Every run of the clone is one of the two of [CloneRun]. *)
Lemma clone_run (m : State) : Run m (clone m).1 (clone m).2.
Proof.
  unfold create_vm_and_instance_disk_data, make_scope_guard, create_virtual_machine, iso_at,
    of_outcome, record, dismiss, on_world, set_world, set_dismissed, mbind, Exec_bind, mret,
    Exec_ret, mthrow, Exec_throw.
  fold source dest. fold archive. fold description. simpl.
  run_cases; rewrite ?rollback_run; simpl; rewrite <- ?app_assoc; simpl.
  all: drop_units; rewrite ?contains_assign in *.
  all: try (first
    [ eapply (clone_returned _ _ _ _ _ _ _ _ _ _ _ _ _ [_])
    | eapply (clone_returned _ _ _ _ _ _ _ _ _ _ _ _ _ [_; _]) ];
    try eassumption; econstructor; eassumption).
  all: first
    [ eapply (clone_threw _ _ _ _ _ _ _ _ _ _ _ [])
    | eapply (clone_threw _ _ _ _ _ _ _ _ _ _ _ [_])
    | eapply (clone_threw _ _ _ _ _ _ _ _ _ _ _ [_; _])
    | eapply (clone_threw _ _ _ _ _ _ _ _ _ _ _ [_; _; _])
    | eapply (clone_threw _ _ _ _ _ _ _ _ _ _ _ [_; _; _; _])
    | eapply (clone_threw _ _ _ _ _ _ _ _ _ _ _ [_; _; _; _; _])
    | eapply (clone_threw _ _ _ _ _ _ _ _ _ _ _ [_; _; _; _; _; _]) ].
  all: try match goal with |- Forall _ _ => repeat constructor end.
  all: first [left; by eexists | right; by eexists].
Qed.

(** C5: the guard is dismissed in exactly the runs that return. In such a run
    every step succeeded, each on the world the step before it left: the
    copy returned on the world the clone started in, the archive was read,
    edited and written back, the handle was constructed and its snapshot load
    returned; the calls issued are those of these steps, in this order, and
    the dismissal is the last of them, so the rollback lambda issued nothing
    (no [exists], no [remove]) and the world the clone leaves is the one the
    snapshot load left. In a run that throws the guard is never dismissed and
    the rollback lambda runs. *)
Theorem guard_dismissed_only_after_all_steps (m : State) :
  exists issued,
    calls (clone m).2 = calls m ++ issued /\
    (ScopeGuardDismissed ∈ issued <-> returned (clone m).1 = true) /\
    (returned (clone m).1 = true ->
       exists w1 iso w2 edits iso' w3 vm w4,
         fileops_copy C source dest copy_options_recursive (world m) = (Returned tt, w1) /\
         iso_read_from C archive w1 = (Returned iso, w2) /\
         ArchiveEdited C dest_vm_spec destination_name iso edits iso' /\
         iso_write_to C iso' archive w2 = (Returned tt, w3) /\
         new_QemuVirtualMachine C description monitor key_provider
           (get_instance_directory C destination_name) w3 = (Returned vm, w4) /\
         load_snapshots_and_update_unique_identifiers C vm src_vm_spec dest_vm_spec
           source_name w4 = (Returned tt, world (clone m).2) /\
         (clone m).1 = Returned vm /\
         issued =
           [FileOpsCopy source dest; IsoReadFrom archive] ++ edits ++
             [IsoWriteTo iso' archive;
              NewQemuVirtualMachine description (get_instance_directory C destination_name);
              LoadSnapshots source_name; ScopeGuardDismissed] /\
         forall p, (FileOpsExists p ∉ issued) /\ (FileOpsRemove p ∉ issued)) /\
    (returned (clone m).1 = false ->
       exists steps w,
         issued = steps ++ rollback_calls C dest w /\
         world (clone m).2 = rollback_world C dest w).
Proof.
  pose proof (clone_run m) as Hrun.
  destruct (clone m) as [r m']; simpl in *.
  inversion Hrun as [w1 iso w2 edits iso' w3 vm w4 w5 Hcopy Hread Hedit Hwrite Hnew Hload
                    | e steps w Hsteps Horder]; subst; simpl.
  - eexists; split; [reflexivity|].
    split; [split; [done|]|].
    { intros _. inversion Hedit; subst; simpl; solve_elem_of. }
    split; [intros _|discriminate].
    exists w1, iso, w2, edits, iso', w3, vm, w4.
    do 8 (split; [done|]).
    intros p. inversion Hedit; subst; simpl; split; solve_not_elem_of.
  - eexists; split; [reflexivity|].
    split.
    + split; [|discriminate]. intros Hin. exfalso.
      apply elem_of_cons in Hin as [?|Hin]; [done|].
      apply elem_of_app in Hin as [Hin|Hin].
      * rewrite list.Forall_forall in Hsteps. by apply Hsteps in Hin.
      * unfold rollback_calls in Hin.
        case_match; repeat (apply elem_of_cons in Hin as [Hin|Hin]; [discriminate|]);
          by apply elem_of_nil in Hin.
    + split; [discriminate|]. intros _. by exists (FileOpsCopy source dest :: steps), w.
Qed.

(** C2: when the meta-data helper is the one the spec describes, a clone that
    returns has read the archive of the copy, called the helper with the new
    name and the old meta-data content, and written back, as the one archive
    write of its trace and at the archive path of the destination, the edited
    archive; the world it leaves is what the construction of the handle and
    the snapshot load made of the world that write left. The meta-data entry
    of the archive written is the emitted form of a document that carries the
    new name in its identity field and agrees with the document read from the
    copied archive on every other field. *)
Theorem clone_rewrites_meta_data_from_old_content
    (load : string -> Outcome YamlNode) (identity_field : string)
    (m : State) (vm : VirtualMachine C) (m' : State) :
  (forall name content,
     make_cloud_init_meta_config C name content =
       make_cloud_init_meta_config_from_spec load identity_field name content) ->
  clone m = (Returned vm, m') ->
  exists w1 source_iso w2 source_content source_doc edits dest_iso dest_doc w3 w4,
    fileops_copy C source dest copy_options_recursive (world m) = (Returned tt, w1) /\
    iso_read_from C archive w1 = (Returned source_iso, w2) /\
    CloudInitIso.at_ "meta-data" source_iso = Some source_content /\
    load source_content = Returned source_doc /\
    ArchiveEdited C dest_vm_spec destination_name source_iso edits dest_iso /\
    MakeMetaConfig destination_name source_content ∈ edits /\
    iso_write_to C dest_iso archive w2 = (Returned tt, w3) /\
    new_QemuVirtualMachine C description monitor key_provider
      (get_instance_directory C destination_name) w3 = (Returned vm, w4) /\
    load_snapshots_and_update_unique_identifiers C vm src_vm_spec dest_vm_spec
      source_name w4 = (Returned tt, world m') /\
    calls m' =
      calls m ++ [FileOpsCopy source dest; IsoReadFrom archive] ++ edits ++
        [IsoWriteTo dest_iso archive;
         NewQemuVirtualMachine description (get_instance_directory C destination_name);
         LoadSnapshots source_name; ScopeGuardDismissed] /\
    (forall iso p, IsoWriteTo iso p ∈ calls m' -> IsoWriteTo iso p ∈ calls m \/
                                                   (iso = dest_iso /\ p = archive)) /\
    CloudInitIso.at_ "meta-data" dest_iso = Some (emit_cloud_config C dest_doc) /\
    yaml_field identity_field dest_doc = Some destination_name /\
    forall X, X <> identity_field -> yaml_field X dest_doc = yaml_field X source_doc.
Proof.
  intros Hspec Hclone.
  pose proof (clone_run m) as Hrun. rewrite Hclone in Hrun. simpl in Hrun.
  inversion Hrun as [w1 iso w2 edits iso' w3 vm' w4 w5 Hcopy Hread Hedit Hwrite Hnew Hload|];
    subst.
  assert (exists content node,
            CloudInitIso.at_ "meta-data" iso = Some content /\
            make_cloud_init_meta_config C destination_name content = Returned node /\
            MakeMetaConfig destination_name content ∈ edits /\
            (forall x p, IsoWriteTo x p ∉ edits) /\
            CloudInitIso.at_ "meta-data" iso' = Some (emit_cloud_config C node))
    as (content & node & Hat & Hmeta & Hcall & Hnowrite & Hat').
  { inversion Hedit; subst; do 2 eexists; (split; [eassumption|]); (split; [eassumption|]).
    - split; [solve_elem_of|]. split; [intros; solve_not_elem_of|]. by eapply at_assign_same.
    - split; [solve_elem_of|]. split; [intros; solve_not_elem_of|].
      rewrite at_assign_other by done. by eapply at_assign_same. }
  rewrite Hspec in Hmeta.
  apply meta_config_from_spec_fields in Hmeta as (old & Hload' & Hid & Hother).
  exists w1, iso, w2, content, old, edits, iso', node, w3, w4.
  do 10 (split; [done|]). split; [|done].
  intros x p Hin. simpl in Hin.
  apply elem_of_app in Hin as [Hin|Hin]; [by left|]. right.
  do 2 (apply elem_of_cons in Hin as [Hin|Hin]; [discriminate|]).
  apply elem_of_app in Hin as [Hin|Hin]; [by apply Hnowrite in Hin|].
  apply elem_of_cons in Hin as [Hin|Hin]; [by simplify_eq|].
  repeat (apply elem_of_cons in Hin as [Hin|Hin]; [discriminate|]).
  by apply elem_of_nil in Hin.
Qed.

(** C7: when the archive read from the copy has no network-config entry and
    the other steps return, the clone returns; it calls no network-config
    helper, and the archive it writes back has no network-config entry and
    differs from the one read in its meta-data entry only. *)
Theorem clone_without_network_config
    (m : State) (w1 : World C) (iso : CloudInitIso.t) (w2 : World C)
    (content : string) (node : YamlNode) (w3 : World C) (vm : VirtualMachine C)
    (w4 w5 : World C) :
  let written := CloudInitIso.assign "meta-data" (emit_cloud_config C node) iso in
  fileops_copy C source dest copy_options_recursive (world m) = (Returned tt, w1) ->
  iso_read_from C archive w1 = (Returned iso, w2) ->
  CloudInitIso.contains "network-config" iso = false ->
  CloudInitIso.at_ "meta-data" iso = Some content ->
  make_cloud_init_meta_config C destination_name content = Returned node ->
  iso_write_to C written archive w2 = (Returned tt, w3) ->
  new_QemuVirtualMachine C description monitor key_provider
    (get_instance_directory C destination_name) w3 = (Returned vm, w4) ->
  load_snapshots_and_update_unique_identifiers C vm src_vm_spec dest_vm_spec
    source_name w4 = (Returned tt, w5) ->
  clone m =
    (Returned vm,
     Build_Machine w5
       (calls m ++
          [FileOpsCopy source dest; IsoReadFrom archive;
           MakeMetaConfig destination_name content; IsoWriteTo written archive;
           NewQemuVirtualMachine description (get_instance_directory C destination_name);
           LoadSnapshots source_name; ScopeGuardDismissed])
       (logged m) (dismissed m)) /\
  CloudInitIso.contains "network-config" written = false /\
  forall key, key <> "meta-data" -> CloudInitIso.at_ key written = CloudInitIso.at_ key iso.
Proof.
  intros written Hcopy Hread Hnone Hat Hmeta Hwrite Hnew Hload.
  split; [|split].
  - unfold dest_desc, iso_path, source_dir, dest_dir in *. subst written.
    unfold_exec.
    rewrite Hcopy. simpl. rewrite Hread. simpl. rewrite Hat. simpl. rewrite Hmeta. simpl.
    rewrite contains_assign, Hnone. simpl. rewrite Hwrite. simpl. rewrite Hnew. simpl.
    rewrite Hload. simpl. by rewrite <- !app_assoc.
  - subst written. by rewrite contains_assign.
  - intros key Hkey. subst written. by apply at_assign_other.
Qed.

(** C8: every run of the clone starts by copying
    [<data_root>/<backend-directory-name>/vault/instances/<source-name>] to
    [<data_root>/<backend-directory-name>/vault/instances/<destination-name>],
    the paths being built with the path operator; every archive it reads or
    writes is [cloud-init-config.iso] directly under the destination
    directory, the description it builds points at that file, and the
    rollback asks about and removes the destination directory only. The
    directories read as the plain text of the layout when the backend
    directory ends in a file name and the instance name is relative. *)
Theorem clone_uses_instance_directory_layout (m : State) :
  let instances :=
    (data_directory +:+ "/" +:+ get_directory_name C) </> "vault" </> "instances" in
  let source_directory := instances </> source_name in
  let dest_directory := instances </> destination_name in
  let archive_file := dest_directory </> "cloud-init-config.iso" in
  (exists rest,
     calls (clone m).2 = calls m ++ FileOpsCopy source_directory dest_directory :: rest /\
     Forall (fun c =>
               match c with
               | FileOpsCopy _ _ => False
               | IsoReadFrom p | IsoWriteTo _ p => p = archive_file
               | FileOpsExists p | FileOpsRemove p => p = dest_directory
               | NewQemuVirtualMachine desc _ =>
                   VirtualMachineDescription.cloud_init_iso desc = archive_file
               | _ => True
               end) rest) /\
  (has_filename (data_directory +:+ "/" +:+ get_directory_name C) = true ->
   forall name, has_root_directory name = false ->
     instances </> name =
       data_directory +:+ "/" +:+ get_directory_name C +:+ "/vault/instances/" +:+ name).
Proof.
  intros instances source_directory dest_directory archive_file. split.
  - pose proof (clone_run m) as Hrun.
    destruct (clone m) as [r m']; simpl in *.
    inversion Hrun as [w1 iso w2 edits iso' w3 vm w4 w5 Hcopy Hread Hedit Hwrite Hnew Hload
                      | e steps w Hsteps Horder]; subst; simpl.
    + eexists; split; [reflexivity|].
      inversion Hedit; subst; simpl; repeat constructor.
    + eexists; split; [reflexivity|].
      apply Forall_app; split.
      * eapply Forall_impl; [|exact Hsteps].
        intros [] Hc; simpl in Hc; try done; try (by destruct Hc as [-> _]).
      * unfold rollback_calls. case_match; repeat constructor.
  - intros Hroot name Hname. subst instances.
    rewrite instances_directory_text by done. by rewrite !append_assoc.
Qed.

(** X1: atomicity as far as the rollback goes. After a clone that throws, either
    the destination directory does not exist, or the rollback lambda found
    it, issued [remove] as its last call, and the removal reported that it
    removed nothing. The hypothesis is the contract of [remove]: a removal
    that reports success has removed the path. *)
Theorem failed_clone_removed_destination_or_removal_failed
    (m : State) (e : Exception) (m' : State) :
  (forall p w,
     (fileops_remove C p w).1.1 = true ->
     (fileops_exists C p (fileops_remove C p w).2).1 = false) ->
  clone m = (Thrown e, m') ->
  (fileops_exists C dest (world m')).1 = false \/
  exists w,
    (fileops_exists C dest w).1 = true /\
    (fileops_remove C dest w).1.1 = false /\
    world m' = (fileops_remove C dest w).2 /\
    list.last (calls m') = Some (FileOpsRemove dest).
Proof.
  intros Hremove Hclone.
  pose proof (clone_run m) as Hrun. rewrite Hclone in Hrun. simpl in Hrun.
  inversion Hrun as [|e' steps w Hsteps Horder]; subst. simpl.
  unfold rollback_world, rollback_calls.
  destruct (fileops_exists C dest w).1 eqn:Hexists; [|by left].
  destruct (fileops_remove C dest w).1.1 eqn:Hremoved.
  - left. by apply Hremove.
  - right. exists w. repeat split; try done.
    change [FileOpsExists (Meta:=Meta C) dest; FileOpsRemove dest]
      with ([FileOpsExists (Meta:=Meta C) dest] ++ [FileOpsRemove dest]).
    rewrite app_comm_cons, !app_assoc. apply last_snoc.
Qed.

(** X2: the steps of a clone are attempted in order and none after a failure: in
    a run that throws, the calls issued are the copy, then an initial segment
    of read, meta-data edit, network edit when the archive has the entry,
    write-back, construction and snapshot load, then the calls of the
    rollback lambda. *)
Theorem failed_clone_stopped_at_the_failing_step (m : State) (e : Exception) (m' : State) :
  clone m = (Thrown e, m') ->
  exists steps undo,
    kind_of <$> calls m' = (kind_of <$> calls m) ++ KCopy :: steps ++ undo /\
    (steps `prefix_of` [KRead; KMakeMeta; KWrite; KConstruct; KLoadSnapshots] \/
     steps `prefix_of` [KRead; KMakeMeta; KMakeNetwork; KWrite; KConstruct; KLoadSnapshots]) /\
    (undo = [KExists] \/ undo = [KExists; KRemove]).
Proof.
  intros Hclone.
  pose proof (clone_run m) as Hrun. rewrite Hclone in Hrun. simpl in Hrun.
  inversion Hrun as [|e' steps w Hsteps Horder]; subst. simpl.
  exists (kind_of <$> steps), (kind_of <$> rollback_calls C dest w).
  split; [|split; [exact Horder|]].
  - by rewrite fmap_app, fmap_cons, fmap_app.
  - unfold rollback_calls. case_match; auto.
Qed.

(** X3: the description the clone constructs the handle from: resources, MAC
    address, extra interfaces and user of the destination specs, the
    destination name and image, the archive under the destination directory,
    and nothing in the four members left to their defaults; the handle is
    constructed on the instance directory of the destination name. *)
Theorem clone_constructs_from_destination_specs
    (m : State) (desc : VirtualMachineDescription.t (Meta C)) (dir : Path) :
  NewQemuVirtualMachine desc dir ∈ calls (clone m).2 ->
  NewQemuVirtualMachine desc dir ∉ calls m ->
  dir = get_instance_directory C destination_name /\
  VirtualMachineDescription.num_cores desc = VMSpecs.num_cores dest_vm_spec /\
  VirtualMachineDescription.mem_size desc = VMSpecs.mem_size dest_vm_spec /\
  VirtualMachineDescription.disk_space desc = VMSpecs.disk_space dest_vm_spec /\
  VirtualMachineDescription.vm_name desc = destination_name /\
  VirtualMachineDescription.default_mac_address desc =
    VMSpecs.default_mac_address dest_vm_spec /\
  VirtualMachineDescription.extra_interfaces desc = VMSpecs.extra_interfaces dest_vm_spec /\
  VirtualMachineDescription.ssh_username desc = VMSpecs.ssh_username dest_vm_spec /\
  VirtualMachineDescription.image desc = dest_vm_image /\
  VirtualMachineDescription.cloud_init_iso desc = dest </> "cloud-init-config.iso" /\
  VirtualMachineDescription.meta_data_config desc = YamlNull /\
  VirtualMachineDescription.user_data_config desc = YamlNull /\
  VirtualMachineDescription.vendor_data_config desc = YamlNull /\
  VirtualMachineDescription.network_data_config desc = YamlNull.
Proof.
  intros Hin Hnew.
  assert (desc = description /\ dir = get_instance_directory C destination_name)
    as [-> ->]; [|by repeat split].
  pose proof (clone_run m) as Hrun.
  destruct (clone m) as [r m']; simpl in *.
  inversion Hrun as [w1 iso w2 edits iso' w3 vm w4 w5 Hcopy Hread Hedit Hwrite Hnew' Hload
                    | e steps w Hsteps Horder]; subst; simpl in Hin.
  - apply elem_of_app in Hin as [Hin|Hin]; [done|].
    do 2 (apply elem_of_cons in Hin as [Hin|Hin]; [discriminate|]).
    apply elem_of_app in Hin as [Hin|Hin].
    + inversion Hedit; subst;
        repeat (apply elem_of_cons in Hin as [Hin|Hin]; [discriminate|]);
        by apply elem_of_nil in Hin.
    + apply elem_of_cons in Hin as [Hin|Hin]; [discriminate|].
      apply elem_of_cons in Hin as [Hin|Hin]; [by simplify_eq|].
      repeat (apply elem_of_cons in Hin as [Hin|Hin]; [discriminate|]).
      by apply elem_of_nil in Hin.
  - apply elem_of_app in Hin as [Hin|Hin]; [done|].
    apply elem_of_cons in Hin as [Hin|Hin]; [discriminate|].
    apply elem_of_app in Hin as [Hin|Hin].
    + rewrite list.Forall_forall in Hsteps. apply Hsteps in Hin. simpl in Hin.
      by destruct Hin.
    + unfold rollback_calls in Hin.
      case_match; repeat (apply elem_of_cons in Hin as [Hin|Hin]; [discriminate|]);
        by apply elem_of_nil in Hin.
Qed.

End Clone.
End Properties.

(** * The factory on the in-memory collaborators *)

Module OnInMemory.
Import InMemory.

Local Abbreviation C := (collaborators host).

(** ** Image preparation under the spec's reading of the image tool *)

(** C4: with the conversion and the amendment the spec describes, preparing
    the image that [prepare_source_image] returned returns that same image
    and leaves the disk as it is: the path is the same and the image at it is
    still in the required container format at the normalised revision. An
    image on disk is always prepared. *)
Theorem prepare_source_image_idempotent
    (h : Host) (image image' : VMImage ImageMetadata)
    (m m' : Machine SimWorld ImageMetadata) :
  prepare_source_image (collaborators h) image m = (Returned image', m') ->
  files (world m') !! image_path image' =
    Some (DiskImageFile {| container_format := qcow2; format_revision := 3 |}) /\
  exists m'',
    prepare_source_image (collaborators h) image' m' = (Returned image', m'') /\
    world m'' = world m'.
Proof.
  intros Hrun. unfold_exec. unfold convert_to_qcow, amend_to_v3, set_files in *.
  destruct image as [p meta], m as [[fs flt] cs lg d]. simpl in *.
  destruct (fs !! p) as [[| | |[[] rev]]|] eqn:Hp; simplify_eq/=.
  - rewrite lookup_insert_eq in Hrun. simplify_eq/=.
    rewrite !lookup_insert_eq. simpl. rewrite lookup_insert_eq.
    split; [done|]. eexists. split; [reflexivity|]. simpl.
    by rewrite !insert_insert_eq.
  - rewrite Hp in Hrun. simplify_eq/=.
    rewrite !lookup_insert_eq. simpl. rewrite lookup_insert_eq.
    split; [done|]. eexists. split; [reflexivity|]. simpl.
    by rewrite !insert_insert_eq.
Qed.

Lemma prepare_source_image_returns
    (h : Host) (image : VMImage ImageMetadata) (m : Machine SimWorld ImageMetadata)
    (img : DiskImage) :
  files (world m) !! image_path image = Some (DiskImageFile img) ->
  exists image' m', prepare_source_image (collaborators h) image m = (Returned image', m').
Proof.
  intros Hp. unfold_exec. unfold convert_to_qcow, amend_to_v3, set_files.
  rewrite Hp. destruct img as [[] rev]; simpl.
  - rewrite lookup_insert_eq. eauto.
  - rewrite Hp. eauto.
Qed.

Example prepare_primary_image :
  let run := prepare_source_image C primary_image (start []) in
  run.1 = Returned {| image_path := instances +:+ "/primary/ubuntu.img.qcow2";
                      metadata := jammy |} /\
  files (world run.2) !! (instances +:+ "/primary/ubuntu.img.qcow2") =
    Some (DiskImageFile {| container_format := qcow2; format_revision := 3 |}).
Proof. vm_compute. done. Qed.

Lemma prepare_source_image_idempotent_witness :
  let once := prepare_source_image C primary_image (start []) in
  exists image',
    once.1 = Returned image' /\
    exists m'',
      prepare_source_image C image' once.2 = (Returned image', m'') /\
      world m'' = world once.2.
Proof.
  exists {| image_path := instances +:+ "/primary/ubuntu.img.qcow2"; metadata := jammy |}.
  split; [vm_compute; reflexivity|].
  apply (prepare_source_image_idempotent host primary_image _ (start []) _).
  vm_compute; reflexivity.
Defined.

(** ** The clone *)

Example clone_primary_returns :
  let run := clone_primary [] in
  run.1 = Returned "primary-clone1" /\
  kind_of <$> calls run.2 =
    [KCopy; KRead; KMakeMeta; KWrite; KConstruct; KLoadSnapshots; KDismiss] /\
  fs_exists clone_directory (world run.2) = (true, 0) /\
  files (world run.2) !! (clone_directory +:+ "/cloud-init-config.iso") =
    Some (IsoFile
            [ {| CloudInitIso.name := "meta-data";
                 CloudInitIso.data :=
                   "#cloud-config" +:+ newline +:+
                   "instance-id: primary" +:+ newline +:+
                   "local-hostname: primary-clone1" +:+ newline +:+
                   "timezone: Europe/Lisbon" +:+ newline |};
              {| CloudInitIso.name := "user-data";
                 CloudInitIso.data := "#cloud-config" +:+ newline |} ]).
Proof. vm_compute. done. Qed.

(** With a network-config entry in the archive, the entry is rewritten for
    the MAC address of the destination. *)
Example clone_primary_with_network_config :
  let run := clone_primary_on (disk_with source_iso_with_network []) in
  run.1 = Returned "primary-clone1" /\
  kind_of <$> calls run.2 =
    [KCopy; KRead; KMakeMeta; KMakeNetwork; KWrite; KConstruct; KLoadSnapshots; KDismiss] /\
  (exists iso,
     files (world run.2) !! clone_archive = Some (IsoFile iso) /\
     CloudInitIso.at_ "network-config" iso =
       Some ("#cloud-config" +:+ newline +:+
             "version: 2" +:+ newline +:+
             "macaddress: 52:54:00:4b:ab:cd" +:+ newline)).
Proof. vm_compute. eauto. Qed.

(** C1: the claim is that after a clone that returns with an error the
    destination instance directory does not exist. On each disk of
    [disks_failing_after_copy] the clone throws, the rollback lambda asks
    [exists] and issues [remove], the removal is refused because the copied
    directory has entries, and the destination directory is still on disk with
    the copied archive in it. *)
Theorem failed_clone_leaves_destination_directory :
  Forall (fun w =>
            let run := clone_primary_on w in
            returned run.1 = false /\
            list.last (calls run.2) = Some (FileOpsRemove clone_directory) /\
            fs_remove clone_directory (world run.2) = ((false, ENOTEMPTY), world run.2) /\
            fs_exists clone_directory (world run.2) = (true, 0) /\
            is_Some (files (world run.2) !! (clone_directory +:+ "/cloud-init-config.iso")))
         disks_failing_after_copy.
Proof. repeat constructor; vm_compute; eauto. Qed.

(** A copy that throws before it creates anything leaves nothing to remove. *)
Example clone_with_failing_copy :
  let run := clone_primary [CopyFails] in
  returned run.1 = false /\
  calls run.2 = [FileOpsCopy (instances +:+ "/primary") clone_directory;
                 FileOpsExists clone_directory] /\
  fs_exists clone_directory (world run.2) = (false, 0).
Proof. vm_compute. done. Qed.

(** A copied directory without entries is removed by the rollback. *)
Example clone_of_empty_instance :
  let run := clone_primary_on disk_with_empty_instance in
  returned run.1 = false /\
  list.last (calls run.2) = Some (FileOpsRemove clone_directory) /\
  fs_exists clone_directory (world run.2) = (false, 0).
Proof. vm_compute. done. Qed.

(** ** The general theorems at this clone *)

(** On the in-memory collaborators an archive that was written is on the disk
    that the construction and the snapshot load leave. *)
Lemma write_construct_load_leave_archive
    (iso : CloudInitIso.t) (p : Path) desc dir vm vm' src dst name (w2 w3 w4 w5 : SimWorld) :
  write_to iso p w2 = (Returned tt, w3) ->
  construct desc tt tt dir w3 = (Returned vm, w4) ->
  load_snapshots vm' src dst name w4 = (Returned tt, w5) ->
  files w5 !! p = Some (IsoFile iso).
Proof.
  unfold write_to, construct, load_snapshots. intros Hwrite Hnew Hload.
  destruct (injected WriteFails w2); [discriminate|].
  destruct (injected ConstructionFails w3); [discriminate|].
  destruct (injected SnapshotLoadFails w4); [discriminate|].
  injection Hwrite as <-. injection Hnew as _ <-. injection Hload as <-.
  apply lookup_insert_eq.
Qed.

Lemma clone_rewrites_meta_data_witness :
  exists w1 source_iso w2 source_content source_doc edits dest_iso dest_doc w3 w4,
    fs_copy (instances +:+ "/primary") clone_directory copy_options_recursive (disk []) =
      (Returned tt, w1) /\
    read_from (clone_directory +:+ "/cloud-init-config.iso") w1 = (Returned source_iso, w2) /\
    CloudInitIso.at_ "meta-data" source_iso = Some source_content /\
    yaml_load source_content = Returned source_doc /\
    ArchiveEdited C specs "primary-clone1" source_iso edits dest_iso /\
    MakeMetaConfig "primary-clone1" source_content ∈ edits /\
    write_to dest_iso (clone_directory +:+ "/cloud-init-config.iso") w2 = (Returned tt, w3) /\
    construct (dest_desc C "/data" specs "primary-clone1" clone_image) tt tt
      (get_instance_directory C "primary-clone1") w3 = (Returned "primary-clone1", w4) /\
    load_snapshots "primary-clone1" specs specs "primary" w4 =
      (Returned tt, world (clone_primary []).2) /\
    calls (clone_primary []).2 =
      calls (start []) ++
        [FileOpsCopy (source_dir C "/data" "primary") (dest_dir C "/data" "primary-clone1");
         IsoReadFrom (iso_path C "/data" "primary-clone1")] ++ edits ++
        [IsoWriteTo dest_iso (iso_path C "/data" "primary-clone1");
         NewQemuVirtualMachine (dest_desc C "/data" specs "primary-clone1" clone_image)
           (get_instance_directory C "primary-clone1");
         LoadSnapshots "primary"; ScopeGuardDismissed] /\
    files (world (clone_primary []).2) !! (clone_directory +:+ "/cloud-init-config.iso") =
      Some (IsoFile dest_iso) /\
    CloudInitIso.at_ "meta-data" dest_iso = Some (emit dest_doc) /\
    yaml_field "local-hostname" dest_doc = Some "primary-clone1" /\
    forall X, X <> "local-hostname" -> yaml_field X dest_doc = yaml_field X source_doc.
Proof.
  destruct (clone_rewrites_meta_data_from_old_content C "/data" specs specs "primary"
              "primary-clone1" clone_image tt tt yaml_load identity_field (start [])
              "primary-clone1" (clone_primary []).2)
    as (w1 & source_iso & w2 & source_content & source_doc & edits & dest_iso & dest_doc &
        w3 & w4 & Hcopy & Hread & Hat & Hdoc & Hedit & Hcall & Hwrite & Hnew & Hload &
        Hcalls & Honly & Hmeta & Hname & Hothers).
  - intros name content. reflexivity.
  - vm_compute. reflexivity.
  - exists w1, source_iso, w2, source_content, source_doc, edits, dest_iso, dest_doc, w3, w4.
    split; [exact Hcopy|]. split; [exact Hread|]. split; [exact Hat|]. split; [exact Hdoc|].
    split; [exact Hedit|]. split; [exact Hcall|]. split; [exact Hwrite|].
    split; [exact Hnew|]. split; [exact Hload|]. split; [exact Hcalls|].
    split;
      [exact (write_construct_load_leave_archive _ _ _ _ _ _ _ _ _ _ _ _ _ Hwrite Hnew Hload)|].
    split; [exact Hmeta|]. split; [exact Hname|exact Hothers].
Defined.

Lemma clone_without_network_config_witness :
  (clone_primary []).1 = Returned "primary-clone1" /\
  CloudInitIso.contains "network-config"
    (CloudInitIso.assign "meta-data"
       (emit (YamlMap [("instance-id", "primary"); ("local-hostname", "primary-clone1");
                       ("timezone", "Europe/Lisbon")]))
       source_iso) = false.
Proof.
  pose (w1 := (fs_copy (instances +:+ "/primary") clone_directory copy_options_recursive
                 (disk [])).2).
  pose (node := YamlMap [("instance-id", "primary"); ("local-hostname", "primary-clone1");
                         ("timezone", "Europe/Lisbon")]).
  pose (w3 := (write_to (CloudInitIso.assign "meta-data" (emit node) source_iso)
                 (clone_directory +:+ "/cloud-init-config.iso") w1).2).
  destruct (clone_without_network_config C "/data" specs specs "primary" "primary-clone1"
              clone_image tt tt (start []) w1 source_iso w1 source_meta_data node w3
              "primary-clone1" w3 w3) as (Hrun & Hnone & _);
    try (vm_compute; reflexivity).
  split; [|exact Hnone].
  change (clone_primary []) with
    (create_vm_and_instance_disk_data C "/data" specs specs "primary" "primary-clone1"
       clone_image tt tt (start [])).
  by rewrite Hrun.
Defined.

Lemma rollback_never_raises_witness :
  exists m',
    rollback C "/data/qemu/vault/instances/nothing" (start []) = (Returned tt, m') /\
    world m' = disk [] /\
    calls m' = [FileOpsExists "/data/qemu/vault/instances/nothing"].
Proof.
  destruct (rollback_never_raises C "/data/qemu/vault/instances/nothing" (start []))
    as (m' & Hrun & Habsent & _).
  exists m'. split; [exact Hrun|]. apply Habsent. reflexivity.
Defined.

Lemma guard_dismissed_witness :
  (exists issued,
     calls (clone_primary []).2 = issued /\ ScopeGuardDismissed ∈ issued /\
     (exists written w2 w3,
        IsoWriteTo written clone_archive ∈ issued /\
        write_to written clone_archive w2 = (Returned tt, w3)) /\
     forall p, (FileOpsExists p ∉ issued) /\ (FileOpsRemove p ∉ issued)) /\
  fs_exists clone_directory (world (clone_primary []).2) = (true, 0).
Proof.
  destruct (guard_dismissed_only_after_all_steps C "/data" specs specs "primary"
              "primary-clone1" clone_image tt tt (start []))
    as (issued & Hcalls & Hdismissed & Hreturned & _).
  destruct Hreturned
    as (w1 & iso & w2 & edits & iso' & w3 & vm & w4 &
        _ & _ & _ & Hwrite & _ & _ & _ & Hissued & Hnone);
    [vm_compute; reflexivity|].
  split; [|vm_compute; reflexivity].
  exists issued. split; [exact Hcalls|]. split; [|split; [|exact Hnone]].
  - apply Hdismissed. vm_compute. reflexivity.
  - exists iso', w2, w3. split; [|exact Hwrite].
    rewrite Hissued, !elem_of_app, !elem_of_cons. auto.
Defined.

Lemma clone_uses_instance_directory_layout_witness :
  "/data/qemu" </> "vault" </> "instances" </> "primary-clone1" =
    "/data/qemu/vault/instances/primary-clone1" /\
  exists rest,
    calls (clone_primary []).2 =
      FileOpsCopy "/data/qemu/vault/instances/primary"
        "/data/qemu/vault/instances/primary-clone1" :: rest.
Proof.
  destruct (clone_uses_instance_directory_layout C "/data" specs specs "primary"
              "primary-clone1" clone_image tt tt (start []))
    as ((rest & Hcalls & _) & Htext).
  split.
  - apply (Htext eq_refl "primary-clone1" eq_refl).
  - exists rest. exact Hcalls.
Defined.

Lemma create_virtual_machine_only_constructs_witness :
  let desc := make_dest_vm_desc C specs "primary-clone1" clone_image
                (clone_directory +:+ "/cloud-init-config.iso") in
  let run := create_virtual_machine C desc tt tt (start [ConstructionFails]) in
  (run.1, world run.2) =
    (Thrown (runtime_error "cannot construct the instance"), disk [ConstructionFails]) /\
  calls run.2 = [NewQemuVirtualMachine desc clone_directory].
Proof.
  intros desc run.
  destruct (create_virtual_machine_only_constructs C desc tt tt (start [ConstructionFails]))
    as (Houtcome & Hcalls & _).
  split; [exact Houtcome|exact Hcalls].
Defined.

Lemma prepare_source_image_changes_only_the_path_witness :
  exists image m',
    prepare_source_image C primary_image (start []) = (Returned image, m') /\
    image_path image = instances +:+ "/primary/ubuntu.img.qcow2" /\
    metadata image = jammy.
Proof.
  destruct (prepare_source_image_changes_only_the_path C primary_image (start []))
    as (Hsame & Hreturns).
  eexists _, _. split.
  - eapply (Hreturns (instances +:+ "/primary/ubuntu.img.qcow2")); reflexivity.
  - split; reflexivity.
Defined.

(** ** The version probe *)

Lemma version_string_witness :
  get_backend_version_string C (start []) = (Returned "qemu-8.2.1", start []).
Proof.
  destruct (version_string_is_parsed_or_unknown C (start []))
    as (_ & _ & _ & Hparsed & _).
  apply Hparsed; reflexivity.
Defined.

Example version_of_an_empty_output :
  (probe (host_that_exits_with 0 "")).1 = Returned "qemu-unknown" /\
  message <$> logged (probe (host_that_exits_with 0 "")).2 =
    ["Failed to parse QEMU version out: ''"].
Proof. vm_compute. done. Qed.

Example version_of_another_program :
  (probe (host_that_exits_with 0 "qemu-img version 8.2.1")).1 = Returned "qemu-unknown" /\
  length (logged (probe (host_that_exits_with 0 "qemu-img version 8.2.1")).2) = 1%nat.
Proof. vm_compute. done. Qed.

Example version_after_a_non_zero_exit :
  (probe (host_that_exits_with 1 version_output)).1 = Returned "qemu-unknown" /\
  length (logged (probe (host_that_exits_with 1 version_output)).2) = 1%nat.
Proof. vm_compute. done. Qed.

Example version_without_qemu :
  (probe host_without_qemu).1 = Returned "qemu-unknown" /\
  message <$> logged (probe host_without_qemu).2 = ["Qemu failed to start: No such file"].
Proof. vm_compute. done. Qed.

Example version_pattern :
  version_re_match ("QEMU emulator version 8.2.1" +:+ newline) = Some "8.2.1" /\
  version_re_match "QEMU emulator version 8.2.1 (Debian 1:8.2.1+ds-1)" = Some "8.2.1" /\
  version_re_match "QEMU emulator version " = None /\
  version_re_match " QEMU emulator version 8.2.1" = None /\
  version_re_match "" = None.
Proof. vm_compute. done. Qed.

(** ** Rollback *)

Lemma fs_remove_removes (p : Path) (w : SimWorld) :
  (fs_remove p w).1.1 = true -> (fs_exists p (fs_remove p w).2).1 = false.
Proof.
  unfold fs_remove, fs_exists, set_files.
  destruct (files w !! p) as [[]|] eqn:Hp; simpl; try done;
    try (intros _; by rewrite lookup_delete_eq).
  destruct (has_entries p w); simpl; [done|]. intros _. by rewrite lookup_delete_eq.
Qed.

Lemma failed_clone_removed_destination_witness :
  let run := clone_primary_on disk_with_empty_instance in
  (fs_exists clone_directory (world run.2)).1 = false \/
  exists w,
    (fs_exists clone_directory w).1 = true /\
    (fs_remove clone_directory w).1.1 = false /\
    world run.2 = (fs_remove clone_directory w).2 /\
    list.last (calls run.2) = Some (FileOpsRemove clone_directory).
Proof.
  apply (failed_clone_removed_destination_or_removal_failed C "/data" specs specs "primary"
           "primary-clone1" clone_image tt tt (start_on disk_with_empty_instance)
           (runtime_error "Failed to open file for reading")
           (clone_primary_on disk_with_empty_instance).2 fs_remove_removes).
  vm_compute. reflexivity.
Defined.

Lemma failed_clone_stopped_witness :
  exists steps undo,
    kind_of <$> calls (clone_primary [WriteFails]).2 = [] ++ KCopy :: steps ++ undo /\
    (steps `prefix_of` [KRead; KMakeMeta; KWrite; KConstruct; KLoadSnapshots] \/
     steps `prefix_of` [KRead; KMakeMeta; KMakeNetwork; KWrite; KConstruct; KLoadSnapshots]) /\
    (undo = [KExists] \/ undo = [KExists; KRemove]).
Proof.
  apply (failed_clone_stopped_at_the_failing_step C "/data" specs specs "primary"
           "primary-clone1" clone_image tt tt (start [WriteFails])
           (runtime_error "Failed to open file for writing")
           (clone_primary [WriteFails]).2).
  vm_compute. reflexivity.
Defined.

Lemma clone_constructs_from_destination_specs_witness :
  let desc := make_dest_vm_desc C specs "primary-clone1" clone_image clone_archive in
  VirtualMachineDescription.vm_name desc = "primary-clone1" /\
  VirtualMachineDescription.image desc = clone_image /\
  VirtualMachineDescription.cloud_init_iso desc =
    "/data/qemu/vault/instances/primary-clone1/cloud-init-config.iso".
Proof.
  intros desc.
  destruct (clone_constructs_from_destination_specs C "/data" specs specs "primary"
              "primary-clone1" clone_image tt tt (start []) desc clone_directory)
    as (_ & _ & _ & _ & Hname & _ & _ & _ & Himage & Hiso & _).
  - vm_compute. solve_elem_of.
  - apply not_elem_of_nil.
  - split; [exact Hname|]. split; [exact Himage|exact Hiso].
Defined.

End OnInMemory.


(** * Further properties of the version probe *)

(** Every character of the string is a decimal digit or a dot. *)
Definition is_version_text (s : string) : bool :=
  forallb in_version_class (list_ascii_of_string s).

(** The string starts with a decimal digit or a dot. *)
Definition continues_version (s : string) : bool :=
  match s with
  | String c _ => in_version_class c
  | EmptyString => false
  end.

Lemma append_cons (c : ascii) (s r : string) : String c s +:+ r = String c (s +:+ r).
Proof. reflexivity. Qed.

Lemma strip_prefix_spec (prefix subject rest : string) :
  strip_prefix prefix subject = Some rest <-> subject = prefix +:+ rest.
Proof.
  revert subject. induction prefix as [|a prefix IH]; intros subject.
  - change ("" +:+ rest) with rest. destruct subject; simpl; split; congruence.
  - destruct subject as [|b subject]; [by split|]. rewrite append_cons. simpl.
    destruct (Ascii.eqb_spec a b) as [->|Hne].
    + rewrite IH. split; intros H; by simplify_eq.
    + split; intros H; by simplify_eq.
Qed.

Lemma take_while_spec (f : ascii -> bool) (s taken : string) :
  take_while f s = taken <->
  forallb f (list_ascii_of_string taken) = true /\
  exists rest, s = taken +:+ rest /\
               match rest with String c _ => f c = false | EmptyString => True end.
Proof.
  revert taken. induction s as [|c s IH]; intros taken; simpl.
  - split.
    + intros <-. split; [done|]. by exists "".
    + intros (_ & rest & Hs & _). destruct taken; [done|discriminate].
  - destruct (f c) eqn:Hc.
    + split.
      * intros <-. simpl. rewrite Hc. simpl.
        destruct (proj1 (IH (take_while f s)) eq_refl) as (Hall & rest & Hs & Hrest).
        split; [done|]. exists rest. rewrite append_cons. by rewrite <- Hs.
      * intros (Hall & rest & Hs & Hrest). destruct taken as [|d taken].
        -- change ("" +:+ rest) with rest in Hs. subst rest. congruence.
        -- rewrite append_cons in Hs. injection Hs as <- Hs. f_equal.
           apply IH. simpl in Hall. rewrite Hc in Hall. eauto.
    + split.
      * intros <-. split; [done|]. by exists (String c s).
      * intros (Hall & rest & Hs & Hrest). destruct taken as [|d taken]; [done|].
        rewrite append_cons in Hs. injection Hs as <- Hs. simpl in Hall.
        rewrite Hc in Hall. discriminate.
Qed.

Lemma version_re_match_captured (subject captured : string) :
  version_re_match subject = Some captured ->
  captured <> "" /\
  is_version_text captured = true /\
  exists rest,
    subject = "QEMU emulator version " +:+ captured +:+ rest /\
    continues_version rest = false.
Proof.
  unfold version_re_match, is_version_text, continues_version.
  destruct (strip_prefix _ subject) as [after|] eqn:Hprefix; [|done].
  apply strip_prefix_spec in Hprefix.
  destruct (take_while in_version_class after) as [|c taken] eqn:Htaken; [done|].
  intros [= <-]. apply take_while_spec in Htaken as (Hall & rest & -> & Hrest).
  split; [done|]. split; [done|]. exists rest. split; [done|].
  destruct rest; done.
Qed.

(** X4: the version pattern matches exactly the subjects that are the literal
    text [QEMU emulator version ], then a non-empty run of decimal digits and
    dots, then anything that does not go on with a digit or a dot; the group
    is that run. So the text taken out of an output is the longest version
    that follows the literal text, and trailing text is ignored. *)
Theorem version_re_match_iff (subject captured : string) :
  version_re_match subject = Some captured <->
  captured <> "" /\
  is_version_text captured = true /\
  exists rest,
    subject = "QEMU emulator version " +:+ captured +:+ rest /\
    continues_version rest = false.
Proof.
  split; [apply version_re_match_captured|].
  unfold version_re_match, is_version_text, continues_version.
  intros (Hne & Hall & rest & -> & Hrest).
  rewrite (proj2 (strip_prefix_spec _ _ (captured +:+ rest)) eq_refl).
  rewrite (proj2 (take_while_spec in_version_class (captured +:+ rest) captured)).
  - destruct captured; done.
  - split; [done|]. exists rest. split; [done|]. destruct rest; [done|].
    by destruct (in_version_class a).
Qed.

Lemma version_re_match_witness :
  version_re_match ("QEMU emulator version " +:+ "8.2.1" +:+ " (Debian 1:8.2.1+ds-1)")
    = Some "8.2.1".
Proof.
  apply (proj2 (version_re_match_iff
                  ("QEMU emulator version " +:+ "8.2.1" +:+ " (Debian 1:8.2.1+ds-1)")
                  "8.2.1")).
  split; [discriminate|]. split; [reflexivity|].
  exists " (Debian 1:8.2.1+ds-1)". split; reflexivity.
Defined.

Section VersionProbe.
Context (C : Collaborators).

Local Abbreviation State := (Machine (World C) (Meta C)).

(** X5: the version string is always [qemu-unknown] or [qemu-] followed by a
    non-empty text of decimal digits and dots. The call appends at most one
    entry to the log, at error level under the factory's category, and
    appends none exactly when the process completed successfully and the
    version was parsed, or it did not and the exit state carries neither an
    error nor an exit code. *)
Theorem version_string_format_and_log (m : State) :
  let process := make_process C ("qemu-system-" +:+ HOST_ARCH C) ["--version"] in
  let exit_state := (execute C process).1 in
  let output := (read_all_standard_output C (execute C process).2).1 in
  let run := get_backend_version_string C m in
  (exists version,
     run.1 = Returned ("qemu-" +:+ version) /\
     (version = "unknown" \/ (version <> "" /\ is_version_text version = true))) /\
  exists entries,
    logged run.2 = logged m ++ entries /\
    (length entries <= 1)%nat /\
    Forall (fun entry => level entry = error_level /\ log_category entry = "qemu factory")
      entries /\
    (entries = [] <->
       (ProcessState.completed_successfully exit_state = true /\
        is_Some (version_re_match output)) \/
       (ProcessState.completed_successfully exit_state = false /\
        ProcessState.error exit_state = None /\ ProcessState.exit_code exit_state = None)).
Proof.
  intros process exit_state output run.
  subst run output exit_state process. unfold get_backend_version_string.
  destruct (execute C _) as [exit_state process] eqn:Hexec. simpl.
  destruct (ProcessState.completed_successfully exit_state) eqn:Hok.
  - destruct (read_all_standard_output C process) as [output process'] eqn:Hout. simpl.
    destruct (version_re_match output) as [captured|] eqn:Hmatch.
    + apply version_re_match_captured in Hmatch as (Hne & Hall & _).
      unfold_exec. split; [eauto 6|].
      exists []. rewrite app_nil_r. repeat split; eauto.
    + destruct (read_all_standard_output C process') as [output_again process''].
      unfold_exec. split; [eauto 6|].
      eexists [_]. split; [reflexivity|]. split; [done|]. split; [by repeat constructor|].
      split; [done|]. intros [[_ [? [=]]]|[[=] _]].
  - destruct (ProcessState.error exit_state) as [e|] eqn:He.
    + unfold_exec. split; [eauto 6|].
      eexists [_]. split; [reflexivity|]. split; [done|]. split; [by repeat constructor|].
      split; [done|]. intros [[[=] _]|[_ [[=] _]]].
    + destruct (ProcessState.exit_code exit_state) as [status|] eqn:Hstatus.
      * destruct (read_all_standard_output C process) as [output process'].
        destruct (read_all_standard_error C process') as [errors process''].
        unfold_exec. split; [eauto 6|].
        eexists [_]. split; [reflexivity|]. split; [done|].
        split; [by repeat constructor|].
        split; [done|]. intros [[[=] _]|[_ [_ [=]]]].
      * unfold_exec. split; [eauto 6|].
        exists []. rewrite app_nil_r. repeat split; eauto.
Qed.

(** X6: when the process completed successfully and its output does not match
    the pattern, the text the error quotes is not the output that was
    matched: the standard output is read a second time, from the process as
    the first read left it, and what that read returns is what the log
    shows. *)
Theorem unparsed_output_is_read_again (m : State) :
  let process := make_process C ("qemu-system-" +:+ HOST_ARCH C) ["--version"] in
  let exit_state := (execute C process).1 in
  let first_read := read_all_standard_output C (execute C process).2 in
  let second_read := read_all_standard_output C first_read.2 in
  ProcessState.completed_successfully exit_state = true ->
  version_re_match first_read.1 = None ->
  get_backend_version_string C m =
    (Returned "qemu-unknown",
     Build_Machine (world m) (calls m)
       (logged m ++
          [{| level := error_level; log_category := "qemu factory";
              message := "Failed to parse QEMU version out: '" +:+ second_read.1 +:+ "'" |}])
       (dismissed m)).
Proof.
  intros process exit_state first_read second_read Hok Hmatch.
  subst second_read first_read exit_state process. unfold get_backend_version_string.
  destruct (execute C _) as [exit_state process]. simpl in *. rewrite Hok.
  destruct (read_all_standard_output C process) as [output process']. simpl in *.
  rewrite Hmatch.
  by destruct (read_all_standard_output C process') as [output_again process''].
Qed.

End VersionProbe.

(** * Further properties of image preparation and of the rollback *)

Section Preparation.
Context (C : Collaborators).

Local Abbreviation State := (Machine (World C) (Meta C)).

(** X7: [prepare_source_image] throws exactly when the conversion throws, in
    which case the amendment is not called, or when the conversion returned
    and the amendment of the converted path throws; the exception is the one
    of the failing call, and the world is left as that call left it: a
    conversion that was made is not undone. *)
Theorem prepare_source_image_throws_iff
    (source_image : VMImage (Meta C)) (m : State) (e : Exception) (m' : State) :
  prepare_source_image C source_image m = (Thrown e, m') <->
  (exists w,
     convert_to_qcow_if_necessary C (image_path source_image) (world m) = (Thrown e, w) /\
     m' = Build_Machine w (calls m ++ [ConvertToQcow (image_path source_image)])
            (logged m) (dismissed m)) \/
  (exists converted w1 w2,
     convert_to_qcow_if_necessary C (image_path source_image) (world m) =
       (Returned converted, w1) /\
     amend_to_qcow2_v3 C converted w1 = (Thrown e, w2) /\
     m' = Build_Machine w2
            (calls m ++ [ConvertToQcow (image_path source_image); AmendToQcow2V3 converted])
            (logged m) (dismissed m)).
Proof.
  unfold_exec. split.
  - intros Hrun. run_cases.
    + right. do 3 eexists. split; [done|]. split; [done|]. by rewrite <- app_assoc.
    + left. eauto.
  - intros [(w & Hconvert & ->)|(converted & w1 & w2 & Hconvert & Hamend & ->)].
    + by rewrite Hconvert.
    + rewrite Hconvert. simpl. rewrite Hamend. simpl. by rewrite <- app_assoc.
Qed.

(** X13: when a removal that reports success has removed the path, a rollback
    that found nothing or whose removal succeeded leaves a world on which the
    rollback run again asks [exists] only and changes nothing. *)
Theorem rollback_again_changes_nothing (p : Path) (m : State) :
  (forall q w,
     (fileops_remove C q w).1.1 = true ->
     (fileops_exists C q (fileops_remove C q w).2).1 = false) ->
  (fileops_exists C p (world m)).1 = false \/ (fileops_remove C p (world m)).1.1 = true ->
  let after := (rollback C p m).2 in
  rollback C p after =
    (Returned tt,
     Build_Machine (world after) (calls after ++ [FileOpsExists p]) (logged after)
       (dismissed after)).
Proof.
  intros Hremove Hgone after. subst after.
  rewrite !rollback_run. simpl. unfold rollback_world, rollback_calls.
  destruct ((fileops_exists C p (world m)).1) eqn:Hexists.
  - destruct Hgone as [|Hremoved]; [done|]. by rewrite (Hremove p (world m) Hremoved).
  - by rewrite Hexists.
Qed.

End Preparation.

(** * Further properties of the clone *)

Lemma contains_at (key : string) (iso : CloudInitIso.t) :
  CloudInitIso.contains key iso = true -> is_Some (CloudInitIso.at_ key iso).
Proof.
  induction iso as [|entry iso IH]; [done|]. simpl.
  destruct (String.eqb (CloudInitIso.name entry) key); simpl; eauto.
Qed.

Section CloneOutcomes.
Context (C : Collaborators).
Context (data_directory : Path) (src_vm_spec dest_vm_spec : VMSpecs.t)
  (source_name destination_name : string) (dest_vm_image : VMImage (Meta C))
  (key_provider : SSHKeyProvider C) (monitor : VMStatusMonitor C).

Local Abbreviation State := (Machine (World C) (Meta C)).
Local Abbreviation clone :=
  (create_vm_and_instance_disk_data C data_directory src_vm_spec dest_vm_spec source_name
     destination_name dest_vm_image key_provider monitor).
Local Abbreviation source := (source_dir C data_directory source_name).
Local Abbreviation dest := (dest_dir C data_directory destination_name).
Local Abbreviation archive := (iso_path C data_directory destination_name).
Local Abbreviation description :=
  (dest_desc C data_directory dest_vm_spec destination_name dest_vm_image).
Local Abbreviation Edited := (ArchiveEdited C dest_vm_spec destination_name).

(** The step at which a clone fails, with the exception the step throws and
    the world it leaves: every step before it returned. *)
Inductive CloneFailedAt (m : State) : Exception -> World C -> Prop :=
| copy_failed e w :
    fileops_copy C source dest copy_options_recursive (world m) = (Thrown e, w) ->
    CloneFailedAt m e w
| read_failed e w1 w :
    fileops_copy C source dest copy_options_recursive (world m) = (Returned tt, w1) ->
    iso_read_from C archive w1 = (Thrown e, w) ->
    CloneFailedAt m e w
| meta_data_missing w1 iso w :
    fileops_copy C source dest copy_options_recursive (world m) = (Returned tt, w1) ->
    iso_read_from C archive w1 = (Returned iso, w) ->
    CloudInitIso.at_ "meta-data" iso = None ->
    CloneFailedAt m
      (runtime_error "Did not find the target file meta-data in the CloudInitIso instance.") w
| meta_config_failed e w1 iso w content :
    fileops_copy C source dest copy_options_recursive (world m) = (Returned tt, w1) ->
    iso_read_from C archive w1 = (Returned iso, w) ->
    CloudInitIso.at_ "meta-data" iso = Some content ->
    make_cloud_init_meta_config C destination_name content = Thrown e ->
    CloneFailedAt m e w
| network_config_failed e w1 iso w content node network_content :
    fileops_copy C source dest copy_options_recursive (world m) = (Returned tt, w1) ->
    iso_read_from C archive w1 = (Returned iso, w) ->
    CloudInitIso.at_ "meta-data" iso = Some content ->
    make_cloud_init_meta_config C destination_name content = Returned node ->
    CloudInitIso.contains "network-config" iso = true ->
    CloudInitIso.at_ "network-config"
      (CloudInitIso.assign "meta-data" (emit_cloud_config C node) iso) = Some network_content ->
    make_cloud_init_network_config C (VMSpecs.default_mac_address dest_vm_spec)
      (VMSpecs.extra_interfaces dest_vm_spec) network_content = Thrown e ->
    CloneFailedAt m e w
| write_failed e w1 iso w2 edits iso' w :
    fileops_copy C source dest copy_options_recursive (world m) = (Returned tt, w1) ->
    iso_read_from C archive w1 = (Returned iso, w2) ->
    Edited iso edits iso' ->
    iso_write_to C iso' archive w2 = (Thrown e, w) ->
    CloneFailedAt m e w
| construction_failed e w1 iso w2 edits iso' w3 w :
    fileops_copy C source dest copy_options_recursive (world m) = (Returned tt, w1) ->
    iso_read_from C archive w1 = (Returned iso, w2) ->
    Edited iso edits iso' ->
    iso_write_to C iso' archive w2 = (Returned tt, w3) ->
    new_QemuVirtualMachine C description monitor key_provider
      (get_instance_directory C destination_name) w3 = (Thrown e, w) ->
    CloneFailedAt m e w
| snapshot_load_failed e w1 iso w2 edits iso' w3 vm w4 w :
    fileops_copy C source dest copy_options_recursive (world m) = (Returned tt, w1) ->
    iso_read_from C archive w1 = (Returned iso, w2) ->
    Edited iso edits iso' ->
    iso_write_to C iso' archive w2 = (Returned tt, w3) ->
    new_QemuVirtualMachine C description monitor key_provider
      (get_instance_directory C destination_name) w3 = (Returned vm, w4) ->
    load_snapshots_and_update_unique_identifiers C vm src_vm_spec dest_vm_spec
      source_name w4 = (Thrown e, w) ->
    CloneFailedAt m e w.

Ltac unfold_clone :=
  unfold create_vm_and_instance_disk_data, make_scope_guard, create_virtual_machine, iso_at,
    of_outcome, record, dismiss, on_world, set_world, set_dismissed, mbind, Exec_bind, mret,
    Exec_ret, mthrow, Exec_throw in *;
  fold source dest in *; fold archive in *; fold description in *; simpl in *.

Ltac edited :=
  first [ eapply edited_meta_data; eassumption
        | eapply edited_meta_data_and_network; eassumption ].

(** X9: the exception a clone throws is the one of the step that failed,
    whatever the rollback does afterwards, and the world it leaves is the one
    the rollback lambda makes of the world that step left. Conversely a step
    that throws after the steps before it returned makes the clone throw that
    exception. A network-config entry the archive contains is always found,
    so looking it up is not among the steps that fail. *)
Theorem clone_throws_the_exception_of_the_failing_step (m : State) (e : Exception) :
  (forall m',
     clone m = (Thrown e, m') ->
     exists w, CloneFailedAt m e w /\ world m' = rollback_world C dest w) /\
  (forall w,
     CloneFailedAt m e w ->
     exists m', clone m = (Thrown e, m') /\ world m' = rollback_world C dest w).
Proof.
  split.
  - intros m' Hclone. unfold_clone.
    run_cases; rewrite ?rollback_run; simpl; drop_units; rewrite ?contains_assign in *.
    all: try match goal with
      | Hc : CloudInitIso.contains ?k ?iso = true,
        Ha : CloudInitIso.at_ ?k (CloudInitIso.assign _ _ ?iso) = None |- _ =>
          rewrite at_assign_other in Ha by done;
          apply contains_at in Hc as [? Hc]; congruence
      end.
    all: eexists; split; [|reflexivity].
    all: first
      [ eapply snapshot_load_failed; [eassumption|eassumption|edited|eassumption..]
      | eapply construction_failed; [eassumption|eassumption|edited|eassumption..]
      | eapply write_failed; [eassumption|eassumption|edited|eassumption..]
      | eapply network_config_failed; eassumption
      | eapply meta_config_failed; eassumption
      | eapply meta_data_missing; eassumption
      | eapply read_failed; eassumption
      | eapply copy_failed; eassumption ].
  - intros w Hfailed. unfold_clone.
    destruct Hfailed;
      repeat match goal with
        | H : Edited _ _ _ |- _ => destruct H
        | H : _ = _ |- _ => rewrite H; simpl; clear H
        | |- context [CloudInitIso.contains _ (CloudInitIso.assign _ _ _)] =>
            rewrite contains_assign
        end;
      rewrite ?rollback_run; simpl; eauto.
Qed.


(** What a clone that returned has done. *)
Lemma clone_returned_steps (m : State) (vm : VirtualMachine C) (m' : State) :
  clone m = (Returned vm, m') ->
  exists w1 iso w2 edits iso' w3 w4 w5,
    fileops_copy C source dest copy_options_recursive (world m) = (Returned tt, w1) /\
    iso_read_from C archive w1 = (Returned iso, w2) /\
    Edited iso edits iso' /\
    iso_write_to C iso' archive w2 = (Returned tt, w3) /\
    new_QemuVirtualMachine C description monitor key_provider
      (get_instance_directory C destination_name) w3 = (Returned vm, w4) /\
    load_snapshots_and_update_unique_identifiers C vm src_vm_spec dest_vm_spec
      source_name w4 = (Returned tt, w5) /\
    m' = Build_Machine w5
           (calls m ++ [FileOpsCopy source dest; IsoReadFrom archive] ++ edits ++
              [IsoWriteTo iso' archive;
               NewQemuVirtualMachine description (get_instance_directory C destination_name);
               LoadSnapshots source_name; ScopeGuardDismissed])
           (logged m) (dismissed m).
Proof.
  intros Hclone. pose proof (clone_run C data_directory src_vm_spec dest_vm_spec
    source_name destination_name dest_vm_image key_provider monitor m) as Hrun.
  rewrite Hclone in Hrun. simpl in Hrun.
  inversion Hrun; subst. eauto 15.
Qed.

(** X10: a clone returns a handle exactly when the copy, the read, the edit
    of the archive, the write-back, the construction of that handle and its
    snapshot load all return, each on the world the one before left; the
    state it leaves then has the world of the snapshot load, the calls of
    these steps followed by the dismissal, and the log and guard flag it
    started with. *)
Theorem clone_returns_iff (m : State) (vm : VirtualMachine C) (m' : State) :
  create_vm_and_instance_disk_data C data_directory src_vm_spec dest_vm_spec source_name
    destination_name dest_vm_image key_provider monitor m = (Returned vm, m') <->
  exists w1 iso w2 edits iso' w3 w4 w5,
    fileops_copy C source dest copy_options_recursive (world m) = (Returned tt, w1) /\
    iso_read_from C archive w1 = (Returned iso, w2) /\
    ArchiveEdited C dest_vm_spec destination_name iso edits iso' /\
    iso_write_to C iso' archive w2 = (Returned tt, w3) /\
    new_QemuVirtualMachine C description monitor key_provider
      (get_instance_directory C destination_name) w3 = (Returned vm, w4) /\
    load_snapshots_and_update_unique_identifiers C vm src_vm_spec dest_vm_spec
      source_name w4 = (Returned tt, w5) /\
    m' = Build_Machine w5
           (calls m ++ [FileOpsCopy source dest; IsoReadFrom archive] ++ edits ++
              [IsoWriteTo iso' archive;
               NewQemuVirtualMachine description (get_instance_directory C destination_name);
               LoadSnapshots source_name; ScopeGuardDismissed])
           (logged m) (dismissed m).
Proof.
  split; [apply clone_returned_steps|].
  intros (w1 & iso & w2 & edits & iso' & w3 & w4 & w5 &
          Hcopy & Hread & Hedit & Hwrite & Hnew & Hload & ->).
  unfold_clone.
  rewrite Hcopy. simpl. rewrite Hread. simpl.
  destruct Hedit as [content node Hat Hmeta Hnone
                    |content node network_content network_node Hat Hmeta Hsome Hat' Hnet].
  - rewrite Hat. simpl. rewrite Hmeta. simpl. rewrite contains_assign, Hnone. simpl.
    rewrite Hwrite. simpl. rewrite Hnew. simpl. rewrite Hload. simpl.
    by rewrite <- !app_assoc.
  - rewrite Hat. simpl. rewrite Hmeta. simpl. rewrite contains_assign, Hsome. simpl.
    rewrite Hat'. simpl. rewrite Hnet. simpl.
    rewrite Hwrite. simpl. rewrite Hnew. simpl. rewrite Hload. simpl.
    by rewrite <- !app_assoc.
Qed.

(** The entries of two archives agree in name, position and, outside the
    given keys, in content. *)
Definition same_entries_outside (keys : list string) (a b : CloudInitIso.t) : Prop :=
  Forall2 (fun x y =>
             CloudInitIso.name x = CloudInitIso.name y /\
             (CloudInitIso.name x ∉ keys -> CloudInitIso.data x = CloudInitIso.data y))
          a b.

Lemma assign_same_entries_outside (keys : list string) key content iso :
  key ∈ keys -> same_entries_outside keys iso (CloudInitIso.assign key content iso).
Proof.
  unfold same_entries_outside.
  intros Hkey. induction iso as [|entry iso IH]; [constructor|]. simpl.
  destruct (String.eqb_spec (CloudInitIso.name entry) key) as [Heq|Hne].
  - constructor.
    + split; [done|]. intros Hout. by rewrite Heq in Hout.
    + clear IH. induction iso; by constructor.
  - by constructor.
Qed.

Lemma same_entries_outside_trans keys a b c :
  same_entries_outside keys a b -> same_entries_outside keys b c ->
  same_entries_outside keys a c.
Proof.
  unfold same_entries_outside.
  intros Hab. revert c. induction Hab as [|x y a b [Hname Hdata] Hab IH]; intros c Hbc.
  - inversion Hbc. constructor.
  - inversion Hbc as [|y' z b' c' [Hname' Hdata'] Hbc']; subst. constructor.
    + split; [congruence|]. intros Hout. rewrite Hdata by done. apply Hdata'.
      by rewrite <- Hname.
    + by apply IH.
Qed.

(** X8: a clone that returns has read the archive of the copy it made and
    written back, as the one archive write of its trace and at the path it
    read from, an archive that has the entries of the archive read, under
    the same names and in the same order, with every entry other than
    meta-data and network-config as it was; between the read and the write
    it called the YAML helpers only, and the world it leaves is what the
    construction and the snapshot load made of the world that write left. *)
Theorem clone_keeps_the_other_archive_entries
    (m : State) (vm : VirtualMachine C) (m' : State) :
  clone m = (Returned vm, m') ->
  exists w1 read w2 edits written w3 w4,
    fileops_copy C source dest copy_options_recursive (world m) = (Returned tt, w1) /\
    iso_read_from C archive w1 = (Returned read, w2) /\
    iso_write_to C written archive w2 = (Returned tt, w3) /\
    new_QemuVirtualMachine C description monitor key_provider
      (get_instance_directory C destination_name) w3 = (Returned vm, w4) /\
    load_snapshots_and_update_unique_identifiers C vm src_vm_spec dest_vm_spec
      source_name w4 = (Returned tt, world m') /\
    calls m' =
      calls m ++ [FileOpsCopy source dest; IsoReadFrom archive] ++ edits ++
        [IsoWriteTo written archive;
         NewQemuVirtualMachine description (get_instance_directory C destination_name);
         LoadSnapshots source_name; ScopeGuardDismissed] /\
    Forall (fun c => kind_of c = KMakeMeta \/ kind_of c = KMakeNetwork) edits /\
    same_entries_outside ["meta-data"; "network-config"] read written /\
    forall iso p, IsoWriteTo iso p ∈ calls m' -> IsoWriteTo iso p ∉ calls m ->
                  iso = written /\ p = archive.
Proof.
  intros Hclone.
  apply clone_returned_steps in Hclone
    as (w1 & iso & w2 & edits & iso' & w3 & w4 & w5 &
        Hcopy & Hread & Hedit & Hwrite & Hnew & Hload & ->).
  exists w1, iso, w2, edits, iso', w3, w4. do 6 (split; [done|]).
  split; [destruct Hedit; repeat constructor; by auto|]. split.
  - destruct Hedit.
    + apply assign_same_entries_outside. solve_elem_of.
    + eapply same_entries_outside_trans; apply assign_same_entries_outside; solve_elem_of.
  - intros written p Hin Hnew'. simpl in Hin.
    apply elem_of_app in Hin as [Hin|Hin]; [done|].
    do 2 (apply elem_of_cons in Hin as [Hin|Hin]; [discriminate|]).
    apply elem_of_app in Hin as [Hin|Hin].
    + destruct Hedit;
        repeat (apply elem_of_cons in Hin as [Hin|Hin]; [discriminate|]);
        by apply elem_of_nil in Hin.
    + apply elem_of_cons in Hin as [Hin|Hin]; [by simplify_eq|].
      repeat (apply elem_of_cons in Hin as [Hin|Hin]; [discriminate|]).
      by apply elem_of_nil in Hin.
Qed.

End CloneOutcomes.

(** * Instance names and directories *)

(** A name that can stand for one directory entry: it is not empty and holds
    no separator. *)
Definition is_plain_name (s : string) : bool :=
  negb (String.eqb s "") &&
  forallb (fun c => negb (is_separator c)) (list_ascii_of_string s).

Lemma length_append (a b : string) :
  String.length (a +:+ b) = (String.length a + String.length b)%nat.
Proof.
  induction a as [|c a IH]; [done|]. rewrite append_cons. simpl. by rewrite IH.
Qed.

Lemma append_inj_l (p a b : string) : p +:+ a = p +:+ b -> a = b.
Proof.
  induction p as [|c p IH]; [done|]. rewrite !append_cons. intros [= H]. by apply IH.
Qed.

Lemma append_inj_r (a b s : string) : a +:+ s = b +:+ s -> a = b.
Proof.
  revert b. induction a as [|c a IH]; intros [|d b] H.
  - done.
  - apply (f_equal String.length) in H. rewrite !length_append in H. simpl in H. lia.
  - apply (f_equal String.length) in H. rewrite !length_append in H. simpl in H. lia.
  - rewrite !append_cons in H. injection H as -> H. f_equal. by apply IH.
Qed.

Lemma last_char_forallb (f : ascii -> bool) (s : string) (c : ascii) :
  forallb f (list_ascii_of_string s) = true -> last_char s = Some c -> f c = true.
Proof.
  induction s as [|d s IH]; [done|]. simpl. intros [Hd Hs]%andb_prop.
  destruct s as [|d' s]; [by intros [= <-]|]. by apply IH.
Qed.

Lemma plain_name_is_relative (s : string) :
  is_plain_name s = true -> has_root_directory s = false.
Proof.
  unfold is_plain_name. destruct s as [|c s]; [done|]. simpl.
  intros [Hc _]%andb_prop. by destruct (is_separator c).
Qed.

Lemma plain_name_has_filename (s : string) :
  is_plain_name s = true -> has_filename s = true.
Proof.
  unfold is_plain_name, has_filename. intros [Hne Hall]%andb_prop.
  destruct (last_char s) as [c|] eqn:Hlast.
  - by apply (last_char_forallb _ _ _ Hall Hlast).
  - destruct s as [|c s]; [done|]. exfalso. clear Hne Hall.
    revert c Hlast. induction s as [|d s IH]; intros c; [done|]. apply (IH d).
Qed.

Section Names.
Context (C : Collaborators).
Context (data_directory : Path) (src_vm_spec dest_vm_spec : VMSpecs.t)
  (source_name destination_name : string) (dest_vm_image : VMImage (Meta C))
  (key_provider : SSHKeyProvider C) (monitor : VMStatusMonitor C).

Local Abbreviation State := (Machine (World C) (Meta C)).
Local Abbreviation clone :=
  (create_vm_and_instance_disk_data C data_directory src_vm_spec dest_vm_spec source_name
     destination_name dest_vm_image key_provider monitor).
Local Abbreviation root := (data_directory +:+ "/" +:+ get_directory_name C).
Local Abbreviation source := (source_dir C data_directory source_name).
Local Abbreviation dest := (dest_dir C data_directory destination_name).
Local Abbreviation archive := (iso_path C data_directory destination_name).

Lemma instance_directory_of_plain_name (name : string) :
  has_filename root = true -> is_plain_name name = true ->
  instances_data_directory C data_directory </> name = root +:+ "/vault/instances/" +:+ name /\
  instances_data_directory C data_directory </> name </> "cloud-init-config.iso" =
    root +:+ "/vault/instances/" +:+ name +:+ "/cloud-init-config.iso".
Proof.
  intros Hroot Hname.
  assert (instances_data_directory C data_directory </> name =
            root +:+ "/vault/instances/" +:+ name) as ->.
  { unfold instances_data_directory, backend_directory_path, get_backend_directory_name.
    by rewrite instances_directory_text by auto using plain_name_is_relative. }
  split; [done|].
  rewrite path_append_relative; [| |done].
  - by rewrite !append_assoc.
  - rewrite <- append_assoc. by apply has_filename_append, plain_name_has_filename.
Qed.

(** What a call of the clone may not be for the source instance to be left
    alone: an [exists] or [remove] of its directory, a copy onto it, a read
    or a write of its archive. *)
Definition spares_source (c : Call (Meta C)) : Prop :=
  match c with
  | FileOpsExists p | FileOpsRemove p => p <> source
  | FileOpsCopy _ to => to <> source
  | IsoReadFrom p | IsoWriteTo _ p => p <> source </> "cloud-init-config.iso"
  | _ => True
  end.

(** X11: two different plain names (not empty, without separator) under a
    backend directory that ends in a file name give two different instance
    directories, and then no call of a clone, whether it returns or throws,
    asks about or removes the source directory, copies onto it, or reads or
    writes the archive of the source: the rollback can only ever remove the
    destination. *)
Theorem clone_spares_the_source (m : State) :
  has_filename root = true ->
  is_plain_name source_name = true ->
  is_plain_name destination_name = true ->
  source_name <> destination_name ->
  dest <> source /\
  exists issued, calls (clone m).2 = calls m ++ issued /\ Forall spares_source issued.
Proof.
  intros Hroot Hsource Hdest Hne.
  destruct (instance_directory_of_plain_name source_name Hroot Hsource) as [Hs Hsa].
  destruct (instance_directory_of_plain_name destination_name Hroot Hdest) as [Hd Hda].
  assert (dest <> source) as Hdirs.
  { unfold dest_dir, source_dir. rewrite Hs, Hd. intros H.
    apply append_inj_l in H. apply append_inj_l in H. exact (Hne (eq_sym H)). }
  assert (archive <> source </> "cloud-init-config.iso") as Harchives.
  { unfold iso_path, dest_dir, source_dir. rewrite Hsa, Hda. intros H.
    rewrite <- !append_assoc in H. apply append_inj_r in H.
    rewrite !append_assoc in H. repeat apply append_inj_l in H.
    exact (Hne (eq_sym H)). }
  split; [done|].
  pose proof (clone_run C data_directory src_vm_spec dest_vm_spec source_name
                destination_name dest_vm_image key_provider monitor m) as Hrun.
  destruct (clone m) as [r m']; simpl in *.
  inversion Hrun as [w1 iso w2 edits iso' w3 vm w4 w5 Hcopy Hread Hedit Hwrite Hnew Hload
                    | e steps w Hsteps Horder]; subst; simpl.
  - eexists; split; [reflexivity|].
    inversion Hedit; subst; simpl; repeat constructor; done.
  - eexists; split; [reflexivity|]. constructor; [done|].
    apply Forall_app; split.
    + eapply Forall_impl; [|exact Hsteps].
      intros [] Hc; simpl in Hc; try done; by subst.
    + unfold rollback_calls. case_match; repeat constructor; done.
Qed.

(** X12: the names are used as they are given. A destination name that starts
    with a separator replaces the whole path: every run then copies the source
    directory onto that absolute path, and the rollback asks about and removes
    that path. An empty destination name stands for the instances directory
    itself, with the archive directly inside it. *)
Theorem clone_uses_names_as_given (m : State) :
  (has_root_directory destination_name = true ->
   exists rest,
     calls (clone m).2 = calls m ++ FileOpsCopy source destination_name :: rest /\
     Forall (fun c => match c with
                      | FileOpsExists p | FileOpsRemove p => p = destination_name
                      | IsoReadFrom p | IsoWriteTo _ p =>
                          p = destination_name </> "cloud-init-config.iso"
                      | _ => True
                      end) rest) /\
  (has_filename root = true -> destination_name = "" ->
   dest = root +:+ "/vault/instances/" /\
   archive = root +:+ "/vault/instances/cloud-init-config.iso").
Proof.
  split.
  - intros Habsolute.
    assert (dest = destination_name) as Hdest
      by (unfold dest_dir, path_append; by rewrite Habsolute).
    pose proof (clone_run C data_directory src_vm_spec dest_vm_spec source_name
                  destination_name dest_vm_image key_provider monitor m) as Hrun.
    destruct (clone m) as [r m']; simpl in *.
    inversion Hrun as [w1 iso w2 edits iso' w3 vm w4 w5 Hcopy Hread Hedit Hwrite Hnew Hload
                      | e steps w Hsteps Horder]; subst; simpl; unfold iso_path;
      rewrite !Hdest.
    + eexists; split; [reflexivity|].
      inversion Hedit; subst; simpl; repeat constructor.
    + eexists; split; [reflexivity|].
      apply Forall_app; split.
      * eapply Forall_impl; [|exact Hsteps].
        intros [] Hc; simpl in Hc; try done.
        all: unfold iso_path in Hc; by rewrite Hdest in Hc.
      * unfold rollback_calls. case_match; repeat constructor.
  - intros Hroot ->.
    assert (instances_data_directory C data_directory = root +:+ "/vault/instances") as Hi.
    { unfold instances_data_directory, backend_directory_path, get_backend_directory_name.
      rewrite (path_append_relative root "vault") by done.
      rewrite (path_append_relative _ "instances") by (by try apply has_filename_append).
      by rewrite !append_assoc. }
    unfold iso_path, dest_dir. rewrite Hi.
    assert ((root +:+ "/vault/instances") </> "" = root +:+ "/vault/instances/") as ->.
    { rewrite path_append_relative by (by try apply has_filename_append).
      by rewrite !append_assoc. }
    split; [done|]. unfold path_append. simpl.
    assert (has_filename (root +:+ "/vault/instances/") = false) as ->.
    { unfold has_filename.
      change "/vault/instances/" with ("/vault/instances" +:+ "/").
      by rewrite <- append_assoc, last_char_append. }
    by rewrite !append_assoc.
Qed.

End Names.

(** * The further properties on the in-memory collaborators *)

Module FurtherOnInMemory.
Import InMemory.

Local Abbreviation C := (collaborators host).

Definition missing_image : VMImage ImageMetadata :=
  {| image_path := instances +:+ "/primary/missing.img"; metadata := jammy |}.

(** Cloning [primary] under another destination name. *)
Definition clone_primary_as (destination_name : string) :=
  create_vm_and_instance_disk_data C "/data" specs specs "primary" destination_name
    clone_image tt tt (start []).

Lemma version_string_format_witness :
  exists entries,
    logged (probe (host_that_exits_with 3 "")).2 = [] ++ entries /\
    (length entries <= 1)%nat /\
    Forall (fun entry => level entry = error_level /\ log_category entry = "qemu factory")
      entries.
Proof.
  destruct (version_string_format_and_log (collaborators (host_that_exits_with 3 ""))
              (start []))
    as (_ & entries & Hlog & Hlength & Hentries & _).
  exists entries. split; [exact Hlog|]. split; [exact Hlength|exact Hentries].
Defined.

Lemma unparsed_output_witness :
  probe (host_that_exits_with 0 "qemu-img version 8.2.1") =
    (Returned "qemu-unknown",
     Build_Machine (disk []) [] 
       [{| level := error_level; log_category := "qemu factory";
           message := "Failed to parse QEMU version out: ''" |}]
       false).
Proof.
  apply (unparsed_output_is_read_again
           (collaborators (host_that_exits_with 0 "qemu-img version 8.2.1")) (start []));
    reflexivity.
Defined.

Lemma prepare_source_image_throws_witness :
  exists m',
    prepare_source_image C missing_image (start []) =
      (Thrown (runtime_error "Cannot read image format"), m') /\
    world m' = disk [] /\
    calls m' = [ConvertToQcow (instances +:+ "/primary/missing.img")].
Proof.
  exists (Build_Machine (disk []) [ConvertToQcow (instances +:+ "/primary/missing.img")] []
            false).
  split; [|split; reflexivity].
  apply (proj2 (prepare_source_image_throws_iff C missing_image (start [])
                  (runtime_error "Cannot read image format") _)).
  left. exists (disk []). split; reflexivity.
Defined.

Lemma rollback_again_witness :
  let after := (rollback C "/data/qemu/vault/instances/nothing" (start [])).2 in
  rollback C "/data/qemu/vault/instances/nothing" after =
    (Returned tt,
     Build_Machine (world after)
       (calls after ++ [FileOpsExists "/data/qemu/vault/instances/nothing"])
       (logged after) (dismissed after)).
Proof.
  apply (rollback_again_changes_nothing C "/data/qemu/vault/instances/nothing" (start [])
           OnInMemory.fs_remove_removes).
  left. reflexivity.
Defined.

Lemma clone_throws_witness :
  exists m',
    clone_primary [WriteFails] =
      (Thrown (runtime_error "Failed to open file for writing"), m') /\
    world m' =
      rollback_world C clone_directory
        (fs_copy (instances +:+ "/primary") clone_directory copy_options_recursive
           (disk [WriteFails])).2.
Proof.
  destruct (clone_throws_the_exception_of_the_failing_step C "/data" specs specs "primary"
              "primary-clone1" clone_image tt tt (start [WriteFails])
              (runtime_error "Failed to open file for writing"))
    as [_ Hthrows].
  apply Hthrows.
  eapply write_failed;
    [reflexivity|reflexivity|eapply edited_meta_data; reflexivity|reflexivity].
Defined.

Lemma clone_returns_witness :
  exists iso edits iso',
    ArchiveEdited C specs "primary-clone1" iso edits iso' /\
    calls (clone_primary []).2 =
      [FileOpsCopy (source_dir C "/data" "primary") (dest_dir C "/data" "primary-clone1");
       IsoReadFrom (iso_path C "/data" "primary-clone1")] ++ edits ++
      [IsoWriteTo iso' (iso_path C "/data" "primary-clone1");
       NewQemuVirtualMachine (dest_desc C "/data" specs "primary-clone1" clone_image)
         (get_instance_directory C "primary-clone1");
       LoadSnapshots "primary"; ScopeGuardDismissed].
Proof.
  destruct (proj1 (clone_returns_iff C "/data" specs specs "primary" "primary-clone1"
                     clone_image tt tt (start []) "primary-clone1" (clone_primary []).2))
    as (w1 & iso & w2 & edits & iso' & w3 & w4 & w5 & _ & _ & Hedit & _ & _ & _ & Hstate).
  - vm_compute. reflexivity.
  - exists iso, edits, iso'. split; [exact Hedit|]. by rewrite Hstate.
Defined.

Lemma clone_keeps_the_other_archive_entries_witness :
  let run := clone_primary_on (disk_with source_iso_with_network []) in
  exists w1 read w2 edits written w3,
    fs_copy (instances +:+ "/primary") clone_directory copy_options_recursive
      (disk_with source_iso_with_network []) = (Returned tt, w1) /\
    read_from clone_archive w1 = (Returned read, w2) /\
    write_to written clone_archive w2 = (Returned tt, w3) /\
    calls run.2 =
      [] ++ [FileOpsCopy (instances +:+ "/primary") clone_directory;
             IsoReadFrom clone_archive] ++ edits ++
        [IsoWriteTo written clone_archive;
         NewQemuVirtualMachine (dest_desc C "/data" specs "primary-clone1" clone_image)
           (get_instance_directory C "primary-clone1");
         LoadSnapshots "primary"; ScopeGuardDismissed] /\
    same_entries_outside ["meta-data"; "network-config"] read written.
Proof.
  intros run.
  destruct (clone_keeps_the_other_archive_entries C "/data" specs specs "primary"
              "primary-clone1" clone_image tt tt
              (start_on (disk_with source_iso_with_network []))
              "primary-clone1" run.2)
    as (w1 & read & w2 & edits & written & w3 & w4 &
        Hcopy & Hread & Hwrite & _ & _ & Hcalls & _ & Hsame & _).
  - vm_compute. reflexivity.
  - exists w1, read, w2, edits, written, w3.
    split; [exact Hcopy|]. split; [exact Hread|]. split; [exact Hwrite|].
    split; [exact Hcalls|exact Hsame].
Defined.

Lemma clone_spares_the_source_witness :
  dest_dir C "/data" "primary-clone1" <> source_dir C "/data" "primary" /\
  exists issued,
    calls (clone_primary [SnapshotLoadFails]).2 = [] ++ issued /\
    Forall (spares_source C "/data" "primary") issued.
Proof.
  apply (clone_spares_the_source C "/data" specs specs "primary" "primary-clone1"
           clone_image tt tt (start [SnapshotLoadFails])).
  - reflexivity.
  - reflexivity.
  - reflexivity.
  - discriminate.
Defined.

Lemma clone_uses_names_as_given_witness :
  exists rest,
    calls (clone_primary_as "/tmp/elsewhere").2 =
      FileOpsCopy "/data/qemu/vault/instances/primary" "/tmp/elsewhere" :: rest.
Proof.
  destruct (clone_uses_names_as_given C "/data" specs specs "primary" "/tmp/elsewhere"
              clone_image tt tt (start []))
    as [Habsolute _].
  destruct (Habsolute eq_refl) as (rest & Hcalls & _).
  exists rest. exact Hcalls.
Defined.

End FurtherOnInMemory.
